(** * ts-async-bootstrap: the lifecycle controller and the bootstrap pipeline

    Shallow embedding of [src/unnamed/part_001] (class [Bootstrap], the
    functions [bootstrap] and [bootstrapPromise]) and of [src/src/index.ts]
    (the functional [bootstrap] without a controller object).

    Modelling choices.
    - JavaScript values that the code inspects ([shouldExitOnError],
      [e.code], exit codes) are [jsval]; a number is a safe integer
      ([Z], of absolute value at most [2^53 - 1]), other numbers are not
      represented.
    - A caller-supplied function is a [hook]: the observable effects of its
      body and its outcome: a synchronous return, a promise that resolves,
      a promise that rejects, or a synchronous throw.  Function values that
      are bound with [.bind(this)] behave as the function itself.
    - A property of an options record is [None] when absent and [Some v]
      when present (possibly with value [undefined] or [null]): the object
      spread [{ ...defaultOptions, ...options }] distinguishes the two.
    - Code that awaits a chain of promises is run sequentially in a small
      monad [M] over a state, writing a trace of [event]s; a failure is
      [Err e]; [Halt c] is a synchronous [process.exit(c)] that terminates
      the process, after which nothing runs.  [process.exit] is Node's of
      version 20 and later: it throws for a code it does not accept
      ([exit_code_error]), and that exception is [Err].  A chain that ends
      in [Err e] is a rejection nobody handles.  [Bootstrap.exit] on a
      booted controller calls [process.exit(code)] only once the teardown
      promise settles: this is the event [EvExitAfterTeardown code]; the
      process is then terminated by that callback (or, for a code that is
      not accepted, the callback throws into a promise nobody handles),
      whose timing relative to later events of the same trace depends on
      how long teardown takes. *)

From Stdlib Require Import List Ascii String ZArith Bool Lia.
Import ListNotations.
Open Scope string_scope.
Open Scope list_scope.

(** ** JavaScript values *)

(** The values the code inspects; [JNumber n] is a number that is a safe
    integer. *)
Inductive jsval : Type :=
| JUndefined
| JNull
| JBool (b : bool)
| JNumber (n : Z)
| JString (s : string).

(** JavaScript truthiness ([if (v)]). *)
Definition truthy (v : jsval) : bool :=
  match v with
  | JUndefined | JNull => false
  | JBool b => b
  | JNumber n => negb (Z.eqb n 0)
  | JString s => negb (String.eqb s "")
  end.

(** [v ?? d] *)
Definition nullish_or (v d : jsval) : jsval :=
  match v with
  | JUndefined | JNull => d
  | _ => v
  end.

(** [v !== null] *)
Definition not_null (v : jsval) : bool :=
  match v with JNull => false | _ => true end.

(** An error object: its class name, message and [code] property. *)
Record jserror : Type := mkError {
  err_name : string;
  err_message : string;
  err_code : jsval
}.

Definition config_error (msg : string) : jserror :=
  mkError "Error" msg JUndefined.

(** Calling [undefined] or [null]. *)
Definition type_error : jserror :=
  mkError "TypeError" "is not a function" JUndefined.

(** ** Which codes [process.exit(code)] accepts (Node 20 and later)

    [process.exit(code)] first stores [code] in [process.exitCode], whose
    setter validates it:
    {[
      if (code !== null && code !== undefined) {
        let value = code;
        if (typeof code === 'string' && code !== '' && NumberIsInteger(+code))
          value = +code;
        validateInteger(value, 'code');   // a safe integer, else it throws
      }
    ]}
    A rejected code makes [process.exit] throw before the process is
    terminated: a [TypeError] [ERR_INVALID_ARG_TYPE] for a value that is not
    a number, a [RangeError] [ERR_OUT_OF_RANGE] for a number that is not a
    safe integer.  (The messages are abbreviated; the code only reads the
    [code] property.)  A string is read as its characters, each below 256. *)

Open Scope Z_scope.

(** [+s] for a string [s]: [NumFin neg n d] is [(-1)^neg * n / d]. *)
Inductive jsnum : Type :=
| NumNaN
| NumInf
| NumFin (neg : bool) (n d : Z).

Definition is_js_space (c : ascii) : bool :=
  existsb (Nat.eqb (nat_of_ascii c)) [9; 10; 11; 12; 13; 32; 160]%nat.

Fixpoint drop_space (l : list ascii) : list ascii :=
  match l with
  | c :: l' => if is_js_space c then drop_space l' else l
  | [] => []
  end.

Definition trim (l : list ascii) : list ascii := rev (drop_space (rev (drop_space l))).

Definition is_dec_digit (c : ascii) : bool :=
  (48 <=? nat_of_ascii c)%nat && (nat_of_ascii c <=? 57)%nat.

(** The value of a hexadecimal, decimal, octal or binary digit in [base]. *)
Definition digit_val (base : Z) (c : ascii) : option Z :=
  let n := Z.of_nat (nat_of_ascii c) in
  let v := if (48 <=? n)%Z && (n <=? 57)%Z then Some (n - 48)%Z
           else if (97 <=? n)%Z && (n <=? 102)%Z then Some (n - 87)%Z
           else if (65 <=? n)%Z && (n <=? 70)%Z then Some (n - 55)%Z
           else None in
  match v with Some d => if (d <? base)%Z then Some d else None | None => None end.

Fixpoint digits_acc (base acc : Z) (l : list ascii) : option Z :=
  match l with
  | [] => Some acc
  | c :: l' =>
      match digit_val base c with
      | Some d => digits_acc base (acc * base + d)%Z l'
      | None => None
      end
  end.

(** One or more digits of [base]. *)
Definition digits_value (base : Z) (l : list ascii) : option Z :=
  match l with [] => None | _ => digits_acc base 0 l end.

Fixpoint span_dec (l : list ascii) : list ascii * list ascii :=
  match l with
  | c :: l' => if is_dec_digit c then let '(a, b) := span_dec l' in (c :: a, b) else ([], l)
  | [] => ([], [])
  end.

(** [ExponentPart] or nothing. *)
Definition parse_exponent (l : list ascii) : option Z :=
  match l with
  | [] => Some 0
  | c :: l' =>
      if (c =? "e")%char || (c =? "E")%char then
        match l' with
        | s :: l'' =>
            if (s =? "+")%char then digits_value 10 l''
            else if (s =? "-")%char then option_map Z.opp (digits_value 10 l'')
            else digits_value 10 l'
        | [] => None
        end
      else None
  end.

(** [StrUnsignedDecimalLiteral]: [Infinity], or digits with an optional
    fraction and exponent.  A value below [10^-330] is [0] as a double, one
    above [10^310] is [Infinity]. *)
Definition unsigned_decimal (neg : bool) (l : list ascii) : jsnum :=
  if String.eqb (string_of_list_ascii l) "Infinity" then NumInf else
  let '(ip, r1) := span_dec l in
  let '(fp, r2) := match r1 with
                   | c :: r => if (c =? ".")%char then span_dec r else ([], r1)
                   | [] => ([], [])
                   end in
  match ip ++ fp, parse_exponent r2 with
  | [], _ | _, None => NumNaN
  | ds, Some x =>
      match digits_value 10 ds with
      | None => NumNaN
      | Some m =>
          let k := (x - Z.of_nat (List.length fp))%Z in
          if (m =? 0)%Z then NumFin neg 0 1
          else if (310 <? k)%Z then NumInf
          else if (k + Z.of_nat (List.length ds) <? -330)%Z then NumFin neg 0 1
          else if (0 <=? k)%Z then NumFin neg (m * 10 ^ k)%Z 1
          else NumFin neg m (10 ^ (- k))%Z
      end
  end.

(** [StringToNumber]: white space around a [StrNumericLiteral]; the empty
    literal is [0]. *)
Definition string_to_number (s : string) : jsnum :=
  let l := trim (list_ascii_of_string s) in
  let radix (base : Z) (ds : list ascii) :=
    match digits_value base ds with Some n => NumFin false n 1 | None => NumNaN end in
  match l with
  | [] => NumFin false 0 1
  | c :: l' =>
      match l' with
      | x :: ds =>
          if (c =? "0")%char && ((x =? "x")%char || (x =? "X")%char) then radix 16 ds
          else if (c =? "0")%char && ((x =? "o")%char || (x =? "O")%char) then radix 8 ds
          else if (c =? "0")%char && ((x =? "b")%char || (x =? "B")%char) then radix 2 ds
          else if (c =? "+")%char then unsigned_decimal false l'
          else if (c =? "-")%char then unsigned_decimal true l'
          else unsigned_decimal false l
      | [] =>
          if (c =? "+")%char || (c =? "-")%char then NumNaN
          else unsigned_decimal false l
      end
  end.

(** [a / b] rounded to the nearest integer, ties to even ([0 < b]). *)
Definition round_half_even (a b : Z) : Z :=
  let q := (a / b)%Z in
  let r := (a mod b)%Z in
  if (b <? 2 * r)%Z then (q + 1)%Z
  else if (2 * r <? b)%Z then q
  else if Z.even q then q else (q + 1)%Z.

(** The double nearest to [n / d] ([0 < n], [0 < d]) as [m * 2^e], with a
    53-bit [m] (fewer bits for a subnormal); [None]: [Infinity]. *)
Definition nearest_double (n d : Z) : option (Z * Z) :=
  let k0 := (Z.log2 n - Z.log2 d)%Z in
  let k := if (0 <=? k0)%Z then (if (d * 2 ^ k0 <=? n)%Z then k0 else (k0 - 1)%Z)
           else (if (d <=? n * 2 ^ (- k0))%Z then k0 else (k0 - 1)%Z) in
  let e := Z.max (k - 52) (-1074) in
  let m := round_half_even (n * 2 ^ (Z.max 0 (- e)))%Z (d * 2 ^ (Z.max 0 e))%Z in
  if (0 <=? e)%Z && (2 ^ 1024 <=? m * 2 ^ e)%Z then None else Some (m, e).

(** [Number.isInteger(x)]: the integer a number is, if it is one. *)
Definition number_integer (x : jsnum) : option Z :=
  match x with
  | NumFin neg n d =>
      if (n =? 0)%Z then Some 0%Z else
      match nearest_double n d with
      | Some (m, e) =>
          let v := if (0 <=? e)%Z then Some (m * 2 ^ e)%Z
                   else if (m mod 2 ^ (- e) =? 0)%Z then Some (m / 2 ^ (- e))%Z else None in
          option_map (fun z => if neg then (- z)%Z else z) v
      | None => None
      end
  | _ => None
  end.

Definition max_safe_integer : Z := (2 ^ 53 - 1)%Z.

Definition invalid_arg_type : jserror :=
  mkError "TypeError" "The code argument must be of type number" (JString "ERR_INVALID_ARG_TYPE").
Definition out_of_range : jserror :=
  mkError "RangeError" "The value of code is out of range" (JString "ERR_OUT_OF_RANGE").

(** What the [process.exitCode] setter throws for [code], if anything.  A
    [JNumber] is a safe integer (see the [jsval] type), so it passes. *)
Definition exit_code_error (code : jsval) : option jserror :=
  match code with
  | JUndefined | JNull | JNumber _ => None
  | JBool _ => Some invalid_arg_type
  | JString s =>
      if String.eqb s "" then Some invalid_arg_type else
      match number_integer (string_to_number s) with
      | Some z => if (Z.abs z <=? max_safe_integer)%Z then None else Some out_of_range
      | None => Some invalid_arg_type
      end
  end.

Close Scope Z_scope.

(** ** Caller-supplied functions *)

Inductive settlement : Type :=
| Fulfilled
| Rejected (e : jserror).

(** Effects of a hook's body: a user-visible action, or settling the
    promise of [bootAsync] (its [accept] and [reject] callbacks). *)
Inductive effect : Type :=
| EffLog (n : nat)
| EffSettle (s : settlement).

Inductive outcome : Type :=
| Returns (v : jsval)
| Resolves (v : jsval)
| Rejects (e : jserror)
| Throws (e : jserror).

Record hook : Type := Hook {
  h_effects : list effect;
  h_result : outcome
}.

(** A property value that is meant to hold a function. *)
Inductive fnval (F : Type) : Type :=
| FUndefined
| FNull
| FFun (f : F).
Arguments FUndefined {F}.
Arguments FNull {F}.
Arguments FFun {F} f.

(** [() => { }] and [async () => { }] *)
Definition sync_noop : hook := Hook [] (Returns JUndefined).
Definition async_noop : hook := Hook [] (Resolves JUndefined).

(** [console.error] *)
Definition console_error : jserror -> hook := fun _ => Hook [] (Returns JUndefined).

(** ** Options records ([BootstrapOptions]) *)

Record options : Type := mkOptions {
  o_register : option (fnval hook);
  o_run : option (fnval hook);
  o_onComplete : option (fnval hook);
  o_onFinally : option (fnval hook);
  o_teardown : option (fnval hook);
  o_shouldExitOnError : option jsval;
  o_errorHandler : option (fnval (jserror -> hook))
}.

(** Reading a property: an absent one reads as [undefined]. *)
Definition read {F} (p : option (fnval F)) : fnval F :=
  match p with None => FUndefined | Some v => v end.

Definition read_val (p : option jsval) : jsval :=
  match p with None => JUndefined | Some v => v end.

Definition over {A} (d o : option A) : option A :=
  match o with None => d | Some v => Some v end.

(** [{ ...d, ...o }]: every property present in [o] wins. *)
Definition spread (d o : options) : options := {|
  o_register := over d.(o_register) o.(o_register);
  o_run := over d.(o_run) o.(o_run);
  o_onComplete := over d.(o_onComplete) o.(o_onComplete);
  o_onFinally := over d.(o_onFinally) o.(o_onFinally);
  o_teardown := over d.(o_teardown) o.(o_teardown);
  o_shouldExitOnError := over d.(o_shouldExitOnError) o.(o_shouldExitOnError);
  o_errorHandler := over d.(o_errorHandler) o.(o_errorHandler)
|}.

(** [{ register: r, run: f }] and the like: only the given properties. *)
Definition no_options : options :=
  mkOptions None None None None None None None.

(** ** Events of a run *)

Inductive event : Type :=
| EvRegister                  (* register() is called *)
| EvRun                       (* run() is called *)
| EvOnComplete                (* onComplete() is called *)
| EvOnError (e : jserror)     (* onError(e) / errorHandler(e) is called *)
| EvOnFinally                 (* onFinally() is called *)
| EvTeardown                  (* teardown() is called *)
| EvEffect (x : effect)       (* the body of the hook just called *)
| EvProcessExit (c : jsval)   (* process.exit(c) is called, synchronously *)
| EvExitAfterTeardown (c : jsval).
  (* .finally(() => process.exit(c)) on the teardown promise *)

(** ** A state, trace and failure monad *)

Inductive res (A : Type) : Type :=
| Ok (a : A)
| Err (e : jserror)
| Halt (c : jsval).
Arguments Ok {A} a.
Arguments Err {A} e.
Arguments Halt {A} c.

Definition M (S A : Type) : Type := S -> S * list event * res A.

Definition ret {S A} (a : A) : M S A := fun s => (s, [], Ok a).

Definition bind {S A B} (m : M S A) (k : A -> M S B) : M S B := fun s =>
  match m s with
  | (s1, t1, Ok a) => let '(s2, t2, r) := k a s1 in (s2, t1 ++ t2, r)
  | (s1, t1, Err e) => (s1, t1, Err e)
  | (s1, t1, Halt c) => (s1, t1, Halt c)
  end.

Notation "x <- m ;; k" := (bind m (fun x => k))
  (at level 61, m at next level, right associativity).
Notation "m ;;; k" := (bind m (fun _ => k))
  (at level 61, right associativity).

Definition get {S} : M S S := fun s => (s, [], Ok s).
Definition put {S} (s : S) : M S unit := fun _ => (s, [], Ok tt).
Definition throw {S A} (e : jserror) : M S A := fun s => (s, [], Err e).

(** How a call [process.exit(c)] ends: the process terminates with [c],
    or the call throws. *)
Definition exit_result {A} (c : jsval) : res A :=
  match exit_code_error c with None => Halt c | Some x => Err x end.

(** [process.exit(c)] *)
Definition process_exit {S A} (c : jsval) : M S A :=
  fun s => (s, [EvProcessExit c], exit_result c).

(** [p.catch(h)] *)
Definition m_catch {S A} (m : M S A) (h : jserror -> M S A) : M S A := fun s =>
  match m s with
  | (s1, t1, Err e) => let '(s2, t2, r) := h e s1 in (s2, t1 ++ t2, r)
  | other => other
  end.

(** [p.finally(g)]: [g] runs after a fulfilment or a rejection; its own
    rejection replaces the outcome, otherwise the outcome is kept. *)
Definition m_finally {S A} (m : M S A) (g : M S unit) : M S A := fun s =>
  match m s with
  | (s1, t1, Halt c) => (s1, t1, Halt c)
  | (s1, t1, r) =>
      let '(s2, t2, r2) := g s1 in
      (s2, t1 ++ t2,
       match r2 with Ok _ => r | Err e => Err e | Halt c => Halt c end)
  end.

(** [await Promise.resolve(f())] inside an async function, [f] a hook:
    a synchronous throw and a rejection are both a rejection here. *)
Definition invoke {S} (ev : event) (h : hook) : M S jsval := fun s =>
  (s, ev :: map EvEffect h.(h_effects),
   match h.(h_result) with
   | Returns v | Resolves v => Ok v
   | Rejects e | Throws e => Err e
   end).

(** The same for a property that may not hold a function. *)
Definition call_fn {S} (ev : event) (f : fnval hook) : M S jsval :=
  match f with
  | FFun h => invoke ev h
  | _ => throw type_error
  end.

Definition call_handler {S} (f : fnval (jserror -> hook)) (e : jserror)
  : M S jsval :=
  match f with
  | FFun h => invoke (EvOnError e) (h e)
  | _ => throw type_error
  end.

(** What a call of [boot] / [bootstrap] does: throw synchronously, or
    return with its promise chain in the given final state. *)
Inductive boot_result : Type :=
| BootThrew (e : jserror)
| BootReturned (r : res jsval).

Definition is_sync_throw (o : outcome) : bool :=
  match o with Throws _ => true | _ => false end.

(** ** [src/unnamed/part_001]: class [Bootstrap] *)

Module Controller.

Record bootstrap : Type := mkBootstrap {
  shouldExitOnError : jsval;
  register : hook;
  teardown : hook;
  onComplete : hook;
  onError : jserror -> hook;
  onFinally : hook;
  isBooted : bool
}.

Definition with_shouldExitOnError (b : bootstrap) (v : jsval) : bootstrap :=
  mkBootstrap v b.(register) b.(teardown) b.(onComplete) b.(onError)
    b.(onFinally) b.(isBooted).
Definition with_register (b : bootstrap) (f : hook) : bootstrap :=
  mkBootstrap b.(shouldExitOnError) f b.(teardown) b.(onComplete) b.(onError)
    b.(onFinally) b.(isBooted).
Definition with_teardown (b : bootstrap) (f : hook) : bootstrap :=
  mkBootstrap b.(shouldExitOnError) b.(register) f b.(onComplete) b.(onError)
    b.(onFinally) b.(isBooted).
Definition with_onComplete (b : bootstrap) (f : hook) : bootstrap :=
  mkBootstrap b.(shouldExitOnError) b.(register) b.(teardown) f b.(onError)
    b.(onFinally) b.(isBooted).
Definition with_onError (b : bootstrap) (f : jserror -> hook) : bootstrap :=
  mkBootstrap b.(shouldExitOnError) b.(register) b.(teardown) b.(onComplete) f
    b.(onFinally) b.(isBooted).
Definition with_onFinally (b : bootstrap) (f : hook) : bootstrap :=
  mkBootstrap b.(shouldExitOnError) b.(register) b.(teardown) b.(onComplete)
    b.(onError) f b.(isBooted).
Definition with_isBooted (b : bootstrap) (v : bool) : bootstrap :=
  mkBootstrap b.(shouldExitOnError) b.(register) b.(teardown) b.(onComplete)
    b.(onError) b.(onFinally) v.

(** The field initialisers of the class. *)
Definition fresh : bootstrap := {|
  shouldExitOnError := JBool true;
  register := async_noop;
  teardown := async_noop;
  onComplete := async_noop;
  onError := console_error;
  onFinally := async_noop;
  isBooted := false
|}.

(** [defaultOptions] *)
Definition defaultOptions : options := {|
  o_register := Some FNull;
  o_run := Some FNull;
  o_onComplete := Some (FFun sync_noop);
  o_onFinally := Some (FFun sync_noop);
  o_teardown := None;
  o_shouldExitOnError := Some (JBool true);
  o_errorHandler := Some (FFun console_error)
|}.

(** *** The guarded setters *)

Definition setRegister (register : hook) : M bootstrap unit := fun b =>
  if b.(isBooted) then (b, [], Err (config_error "Cannot setRegister() after boot"))
  else (with_register b register, [], Ok tt).

Definition setTeardown (teardown : hook) : M bootstrap unit := fun b =>
  if b.(isBooted) then (b, [], Err (config_error "Cannot setTeardown() after boot"))
  else (with_teardown b teardown, [], Ok tt).

Definition setOnComplete (onComplete : hook) : M bootstrap unit := fun b =>
  if b.(isBooted) then (b, [], Err (config_error "Cannot setOnComplete() after boot"))
  else (with_onComplete b onComplete, [], Ok tt).

Definition setOnError (onError : jserror -> hook) : M bootstrap unit := fun b =>
  if b.(isBooted) then (b, [], Err (config_error "Cannot setOnError() after boot"))
  else (with_onError b onError, [], Ok tt).

Definition setOnFinally (onFinally : hook) : M bootstrap unit := fun b =>
  if b.(isBooted) then (b, [], Err (config_error "Cannot setOnFinally() after boot"))
  else (with_onFinally b onFinally, [], Ok tt).

(** [if (options.x) { this.setX(options.x); }] *)
Definition when_fn {F} (v : fnval F) (k : F -> M bootstrap unit)
  : M bootstrap unit :=
  match v with FFun f => k f | _ => ret tt end.

(** The constructor body; the three [process.on(...)] registrations bind
    [exit] to SIGINT, SIGTERM and the [exit] event and change no field. *)
Definition constructor (options : options) : M bootstrap unit :=
  when_fn (read options.(o_register)) setRegister ;;;
  when_fn (read options.(o_onComplete)) setOnComplete ;;;
  when_fn (read options.(o_onFinally)) setOnFinally ;;;
  when_fn (read options.(o_teardown)) setTeardown ;;;
  b <- get ;;
  (if not_null (read_val options.(o_shouldExitOnError))
   then put (with_shouldExitOnError b (read_val options.(o_shouldExitOnError)))
   else ret tt) ;;;
  when_fn (read options.(o_errorHandler)) setOnError.

(** [new Bootstrap(arg)], with the default parameter
    [options = defaultOptions] used when no argument is given. *)
Definition new_Bootstrap (arg : option options) : bootstrap * list event * res unit :=
  constructor (match arg with None => defaultOptions | Some o => o end) fresh.

(** *** [exit(code = 1)] *)
Definition exit (arg : jsval) : M bootstrap unit := fun b =>
  let code := match arg with JUndefined => JNumber 1 | v => v end in
  if negb b.(isBooted) then process_exit code b
  else
    let b' := with_isBooted b false in
    let h := b'.(teardown) in
    (b', EvTeardown :: map EvEffect h.(h_effects)
           ++ (if is_sync_throw h.(h_result) then [] else [EvExitAfterTeardown code]),
     match h.(h_result) with Throws e => Err e | _ => Ok tt end).

(** *** [boot(run)] *)

(** The [.catch(async e => ...)] handler. *)
Definition catch_handler (e : jserror) : M bootstrap jsval :=
  b <- get ;;
  invoke (EvOnError e) (b.(onError) e) ;;;
  b' <- get ;;
  if truthy b'.(shouldExitOnError)
  then exit (nullish_or e.(err_code) (JNumber 1)) ;;; ret JUndefined
  else ret JUndefined.

(** The [.finally(async () => ...)] handler. *)
Definition finally_handler : M bootstrap unit :=
  b <- get ;;
  invoke EvOnFinally b.(onFinally) ;;; ret tt.

(** [Promise.resolve(this.register()).then(run).then(onComplete)] *)
Definition body (run : fnval hook) : M bootstrap jsval :=
  b <- get ;;
  invoke EvRegister b.(register) ;;;
  call_fn EvRun run ;;;
  b' <- get ;;
  invoke EvOnComplete b'.(onComplete).

Definition pipeline (run : fnval hook) : M bootstrap jsval :=
  m_finally (m_catch (body run) catch_handler) finally_handler.

(** [this.register()] is called synchronously, outside the promise chain:
    its synchronous throw escapes [boot]. *)
Definition boot (run : fnval hook) (b : bootstrap)
  : bootstrap * list event * boot_result :=
  let b0 := with_isBooted b true in
  let r := b0.(register) in
  match r.(h_result) with
  | Throws e => (b0, EvRegister :: map EvEffect r.(h_effects), BootThrew e)
  | _ => let '(b1, t, out) := pipeline run b0 in (b1, t, BootReturned out)
  end.

(** *** [bootAsync()] *)

(** [accept] and [reject] of the promise, as hooks. *)
Definition accept_run : hook := Hook [EffSettle Fulfilled] (Resolves JUndefined).
Definition reject_hook : jserror -> hook :=
  fun e => Hook [EffSettle (Rejected e)] (Returns JUndefined).

Fixpoint first_settle (t : list event) : option settlement :=
  match t with
  | [] => None
  | EvEffect (EffSettle s) :: _ => Some s
  | _ :: t' => first_settle t'
  end.

(** The promise settles with the first call of [accept] or [reject]; a
    synchronous throw of the executor rejects it.  [None]: still pending. *)
Definition bootAsync (b : bootstrap) : bootstrap * list event * option settlement :=
  let b1 := with_shouldExitOnError b (JBool false) in
  match setOnError reject_hook b1 with
  | (b2, t2, Err e) => (b2, t2, Some (Rejected e))
  | (b2, t2, _) =>
      let '(b3, t3, br) := boot (FFun accept_run) b2 in
      let t := t2 ++ t3 in
      (b3, t,
       match first_settle t with
       | Some s => Some s
       | None => match br with BootThrew e => Some (Rejected e) | _ => None end
       end)
  end.

(** *** The exported functions *)

(** [bootstrap(options)]: the controller is built from the merged options,
    [boot] gets the [run] of the options as given. *)
Definition bootstrap_fn (options : options)
  : bootstrap * list event * (jserror + boot_result) :=
  match new_Bootstrap (Some (spread defaultOptions options)) with
  | (b, t, Ok _) =>
      let '(b', t', br) := boot (read options.(o_run)) b in (b', t ++ t', inr br)
  | (b, t, Err e) => (b, t, inl e)
  | (b, t, Halt _) => (b, t, inl type_error)
  end.

Definition bootstrapPromise_options (register : hook) : options :=
  {| o_register := Some (FFun register); o_run := Some (FFun async_noop);
     o_onComplete := None; o_onFinally := None; o_teardown := None;
     o_shouldExitOnError := None; o_errorHandler := None |}.

(** [bootstrapPromise(register)] *)
Definition bootstrapPromise (register : hook)
  : bootstrap * list event * option settlement :=
  match new_Bootstrap (Some (bootstrapPromise_options register)) with
  | (b, t, Ok _) => let '(b', t', s) := bootAsync b in (b', t ++ t', s)
  | (b, t, Err e) => (b, t, Some (Rejected e))
  | (b, t, Halt _) => (b, t, None)
  end.

End Controller.

(** ** [src/src/index.ts]: the functional [bootstrap] *)

Module Legacy.

(** [defaultOptions] (this version has no [teardown]). *)
Definition defaultOptions : options := {|
  o_register := Some FNull;
  o_run := Some FNull;
  o_onComplete := Some (FFun sync_noop);
  o_onFinally := Some (FFun sync_noop);
  o_teardown := None;
  o_shouldExitOnError := Some (JBool true);
  o_errorHandler := Some (FFun console_error)
|}.

(** The promise chain, after [options = { ...defaultOptions, ...options }];
    there is no state ([unit]). *)
Definition catch_handler (o : options) (e : jserror) : M unit jsval :=
  call_handler (read o.(o_errorHandler)) e ;;;
  if truthy (read_val o.(o_shouldExitOnError))
  then process_exit (nullish_or e.(err_code) (JNumber 1))
  else ret JUndefined.

Definition finally_handler (o : options) : M unit unit :=
  call_fn EvOnFinally (read o.(o_onFinally)) ;;; ret tt.

(** [Promise.resolve(options.register ? options.register() : null)] *)
Definition start (o : options) : M unit jsval :=
  match read o.(o_register) with
  | FFun r => invoke EvRegister r
  | _ => ret JNull
  end.

Definition body (o : options) : M unit jsval :=
  start o ;;;
  call_fn EvRun (read o.(o_run)) ;;;
  call_fn EvOnComplete (read o.(o_onComplete)).

Definition pipeline (o : options) : M unit jsval :=
  m_finally (m_catch (body o) (catch_handler o)) (finally_handler o).

Definition bootstrap (options : options) : list event * boot_result :=
  let o := spread defaultOptions options in
  match read o.(o_register) with
  | FFun r =>
      match r.(h_result) with
      | Throws e => (EvRegister :: map EvEffect r.(h_effects), BootThrew e)
      | _ => let '(_, t, out) := pipeline o tt in (t, BootReturned out)
      end
  | _ => let '(_, t, out) := pipeline o tt in (t, BootReturned out)
  end.

(** [async (...e) => reject(...e)] *)
Definition reject_async : jserror -> hook :=
  fun e => Hook [EffSettle (Rejected e)] (Resolves JUndefined).

(** The options [bootstrapPromise] passes; [run] is [async () => accept()]. *)
Definition bootstrapPromise_options (register : hook) : options :=
  {| o_register := Some (FFun register); o_run := Some (FFun Controller.accept_run);
     o_onComplete := None; o_onFinally := None; o_teardown := None;
     o_shouldExitOnError := Some (JBool false);
     o_errorHandler := Some (FFun reject_async) |}.

(** [bootstrapPromise(register)]: the promise settles with the first call
    of [accept] or [reject]; a synchronous throw of the executor (the
    register hook's, escaping [bootstrap]) rejects it.  [None]: pending. *)
Definition bootstrapPromise (register : hook) : list event * option settlement :=
  let '(t, br) := bootstrap (bootstrapPromise_options register) in
  (t, match Controller.first_settle t with
      | Some s => Some s
      | None => match br with BootThrew e => Some (Rejected e) | _ => None end
      end).

End Legacy.

(** ** [src/unnamed/part_000]: the first version of [bootstrap] *)

Module Early.

(** Its [BootstrapOptions]: [shouldExit] instead of the hooks. *)
Record options : Type := mkOptions {
  o_register : option (fnval hook);
  o_run : option (fnval hook);
  o_shouldExit : option jsval;
  o_errorHandler : option (fnval (jserror -> hook))
}.

Definition defaultOptions : options := {|
  o_register := Some FNull;
  o_run := Some FNull;
  o_shouldExit := Some (JBool true);
  o_errorHandler := Some (FFun console_error)
|}.

Definition spread (d o : options) : options := {|
  o_register := over d.(o_register) o.(o_register);
  o_run := over d.(o_run) o.(o_run);
  o_shouldExit := over d.(o_shouldExit) o.(o_shouldExit);
  o_errorHandler := over d.(o_errorHandler) o.(o_errorHandler)
|}.

Definition start (o : options) : M unit jsval :=
  match read o.(o_register) with
  | FFun r => invoke EvRegister r
  | _ => ret JNull
  end.

(** [.then(run).then((returned) => { if (shouldExit) process.exit(returned ? returned : 0) })] *)
Definition body (o : options) : M unit jsval :=
  start o ;;;
  returned <- call_fn EvRun (read o.(o_run)) ;;
  if truthy (read_val o.(o_shouldExit))
  then process_exit (if truthy returned then returned else JNumber 0)
  else ret JUndefined.

Definition catch_handler (o : options) (e : jserror) : M unit jsval :=
  call_handler (read o.(o_errorHandler)) e ;;;
  if truthy (read_val o.(o_shouldExit))
  then process_exit (nullish_or e.(err_code) (JNumber 1))
  else ret JUndefined.

Definition pipeline (o : options) : M unit jsval :=
  m_catch (body o) (catch_handler o).

Definition bootstrap (options : options) : list event * boot_result :=
  let o := spread defaultOptions options in
  match read o.(o_register) with
  | FFun r =>
      match r.(h_result) with
      | Throws e => (EvRegister :: map EvEffect r.(h_effects), BootThrew e)
      | _ => let '(_, t, out) := pipeline o tt in (t, BootReturned out)
      end
  | _ => let '(_, t, out) := pipeline o tt in (t, BootReturned out)
  end.

Definition bootstrapPromise_options (register : hook) : options :=
  {| o_register := Some (FFun register); o_run := Some (FFun Controller.accept_run);
     o_shouldExit := Some (JBool false);
     o_errorHandler := Some (FFun Legacy.reject_async) |}.

Definition bootstrapPromise (register : hook) : list event * option settlement :=
  let '(t, br) := bootstrap (bootstrapPromise_options register) in
  (t, match Controller.first_settle t with
      | Some s => Some s
      | None => match br with BootThrew e => Some (Rejected e) | _ => None end
      end).

End Early.

(** ** Sample inputs *)

Definition boom : jserror := mkError "Error" "boom" JUndefined.
Definition rejecting (e : jserror) : hook := Hook [] (Rejects e).
Definition throwing (e : jserror) : hook := Hook [] (Throws e).
(** Errors whose [code] is set: a Node-style string code, and [0]. *)
Definition enoent : jserror := mkError "Error" "ENOENT: no such file" (JString "ENOENT").
Definition code_zero : jserror := mkError "Error" "done" (JNumber 0).

(** [{ run: r }] *)
Definition opts_with_run (r : hook) : options :=
  {| o_register := None; o_run := Some (FFun r);
     o_onComplete := None; o_onFinally := None; o_teardown := None;
     o_shouldExitOnError := None; o_errorHandler := None |}.

(** [{ register: r, run: () => { } }] *)
Definition opts_with_register (r : hook) : options :=
  {| o_register := Some (FFun r); o_run := Some (FFun sync_noop);
     o_onComplete := None; o_onFinally := None; o_teardown := None;
     o_shouldExitOnError := None; o_errorHandler := None |}.

(** [{ register: r, run: () => { }, shouldExitOnError: false }] *)
Definition opts_register_noexit (r : hook) : options :=
  {| o_register := Some (FFun r); o_run := Some (FFun sync_noop);
     o_onComplete := None; o_onFinally := None; o_teardown := None;
     o_shouldExitOnError := Some (JBool false); o_errorHandler := None |}.

(** A controller whose [register] hook has been set to [r]. *)
Definition ctl_with_register (r : hook) : Controller.bootstrap :=
  Controller.with_register Controller.fresh r.

(** ** Observing traces *)

Definition is_EvRun (ev : event) : bool :=
  match ev with EvRun => true | _ => false end.
Definition is_EvOnComplete (ev : event) : bool :=
  match ev with EvOnComplete => true | _ => false end.
Definition is_EvOnFinally (ev : event) : bool :=
  match ev with EvOnFinally => true | _ => false end.
Definition is_EvOnError (ev : event) : bool :=
  match ev with EvOnError _ => true | _ => false end.
Definition is_EvTeardown (ev : event) : bool :=
  match ev with EvTeardown => true | _ => false end.
(** A call of [process.exit], now or once teardown settles (a call that
    terminates the process, unless its code is not accepted). *)
Definition is_termination (ev : event) : bool :=
  match ev with EvProcessExit _ | EvExitAfterTeardown _ => true | _ => false end.

(** How many events of a kind the trace has. *)
Definition count (p : event -> bool) (t : list event) : nat :=
  List.length (filter p t).
Arguments count : simpl never.

(** The bodies of hooks are not themselves hook calls. *)
Definition blind (p : event -> bool) : Prop := forall x, p (EvEffect x) = false.

Definition settles_ok (o : outcome) : bool :=
  match o with Returns _ | Resolves _ => true | _ => false end.

Definition no_halt {A} (r : res A) : bool :=
  match r with Halt _ => false | _ => true end.

(** A hook body that does not itself settle the [bootAsync] promise. *)
Definition settles_nothing (l : list effect) : bool :=
  forallb (fun x => match x with EffSettle _ => false | _ => true end) l.

Arguments truthy : simpl never.
Arguments nullish_or : simpl never.

(** Calls [exit(c1); exit(c2); ...] (explicit calls, SIGINT, SIGTERM, the
    [exit] event) made while the process is still running, each on the
    controller the previous call left: a call that terminates the process
    or throws ends the sequence. *)
Fixpoint exit_calls (cs : list Z) : M Controller.bootstrap unit :=
  match cs with
  | [] => ret tt
  | c :: cs' => Controller.exit (JNumber c) ;;; exit_calls cs'
  end.

(** A setter of the controller guards its hook by [isBooted]: when booted
    it throws [msg] synchronously and the controller is left as it was;
    otherwise it stores the new hook. *)
Definition guarded_setter {H : Type} (set : H -> M Controller.bootstrap unit)
    (field : Controller.bootstrap -> H)
    (update : Controller.bootstrap -> H -> Controller.bootstrap) (msg : string) : Prop :=
  (forall b f, Controller.isBooted b = true ->
     set f b = (b, [], Err (config_error msg))) /\
  (forall b f, Controller.isBooted b = false ->
     set f b = (update b f, [], Ok tt) /\ field (update b f) = f /\
     Controller.isBooted (update b f) = false).

(** * Properties *)

Lemma count_app p t1 t2 : count p (t1 ++ t2) = count p t1 + count p t2.
Proof. unfold count. rewrite filter_app, length_app. reflexivity. Qed.

Lemma count_effects p l : blind p -> count p (map EvEffect l) = 0.
Proof.
  intros Hb. unfold count. induction l as [|x l IH]; simpl; [reflexivity|].
  rewrite Hb. exact IH.
Qed.

Lemma count_nil p : count p [] = 0.
Proof. reflexivity. Qed.

Lemma count_cons p ev t :
  count p (ev :: t) = (if p ev then 1 else 0) + count p t.
Proof. unfold count. simpl. destruct (p ev); reflexivity. Qed.

Lemma blind_run : blind is_EvRun. Proof. intros x; reflexivity. Qed.
Lemma blind_onComplete : blind is_EvOnComplete. Proof. intros x; reflexivity. Qed.
Lemma blind_onFinally : blind is_EvOnFinally. Proof. intros x; reflexivity. Qed.
Lemma blind_onError : blind is_EvOnError. Proof. intros x; reflexivity. Qed.
Lemma blind_teardown : blind is_EvTeardown. Proof. intros x; reflexivity. Qed.
Lemma blind_termination : blind is_termination. Proof. intros x; reflexivity. Qed.

Ltac count_trace :=
  repeat first
    [ rewrite count_app
    | rewrite count_cons
    | rewrite count_effects by
        first [ exact blind_run | exact blind_onComplete | exact blind_onFinally
              | exact blind_onError | exact blind_teardown | exact blind_termination ]
    | rewrite count_nil ];
  simpl.

Example legacy_scenario_ok :
  Legacy.bootstrap
    {| o_register := None; o_run := Some (FFun (Hook [EffLog 1] (Returns (JString "done"))));
       o_onComplete := None; o_onFinally := None; o_teardown := None;
       o_shouldExitOnError := None; o_errorHandler := None |}
  = ([EvRun; EvEffect (EffLog 1); EvOnComplete; EvOnFinally],
     BootReturned (Ok (JUndefined))).
Proof. reflexivity. Qed.

Ltac eval_in H :=
  cbn in H; unfold exit_result in H;
  repeat (match type of H with
          | context [match ?x with _ => _ end] =>
              lazymatch type of x with
              | prod _ _ => fail
              | res _ => fail
              | jsval => fail
              | _ => let E := fresh "E" in destruct x eqn:E; try congruence
              end
          end; cbn in H).

Ltac resolve_opt Hh :=
  repeat match type of Hh with
         | context [over _ ?v] => is_var v; destruct v as [[| |?]|]; cbn in Hh; try discriminate
         end;
  try (injection Hh as <-).

Ltac close :=
  intros; cbn in *;
  repeat match goal with
         | X : FFun _ = FFun _ |- _ => injection X as X; subst
         end;
  repeat match goal with
         | E : h_result ?x = _, X : context [h_result ?x] |- _ =>
             rewrite E in X; cbn in X
         end;
  try discriminate; try congruence;
  first [ count_trace; reflexivity
        | eexists; rewrite <- ?app_assoc; reflexivity
        | split; close
        | count_trace; congruence ].

Ltac unfold_controller H :=
  unfold Controller.boot, Controller.pipeline, m_finally, m_catch,
    Controller.body, Controller.catch_handler, Controller.finally_handler,
    Controller.exit, bind, get, put, ret, invoke, call_fn, call_handler,
    throw, process_exit, exit_result in H.

Ltac unfold_legacy H :=
  unfold Legacy.bootstrap, Legacy.pipeline, m_finally, m_catch,
    Legacy.body, Legacy.start, Legacy.catch_handler, Legacy.finally_handler,
    bind, get, put, ret, invoke, call_fn, call_handler, throw,
    process_exit, exit_result in H.

Lemma controller_register_phase b run b' t br :
     Controller.boot run b = (b', t, br) ->
     match h_result (Controller.register b) with
     | Rejects e =>
         count is_EvRun t = 0 /\ count is_EvOnComplete t = 0 /\
         (exists rest, t = EvRegister :: map EvEffect (h_effects (Controller.register b))
                             ++ EvOnError e :: rest) /\
         (truthy (Controller.shouldExitOnError b) = false -> count is_EvOnFinally t = 1)
     | Throws _ => count is_EvRun t = 0 /\ count is_EvOnComplete t = 0
     | _ => forall h, run = FFun h ->
         exists rest, t = EvRegister :: map EvEffect (h_effects (Controller.register b))
                            ++ EvRun :: rest
     end.
Proof.
  intros H. unfold_controller H. cbn in H.
  destruct (h_result (Controller.register b)) eqn:Er; rewrite ?Er in H.
  - intros h ->. eval_in H. all: injection H as <- <- <-; eexists; rewrite <- ?app_assoc; reflexivity.
  - intros h ->. eval_in H. all: injection H as <- <- <-; eexists; rewrite <- ?app_assoc; reflexivity.
  - eval_in H. all: injection H as <- <- <-.
    all: repeat split; [count_trace; reflexivity | count_trace; reflexivity | eexists; rewrite <- ?app_assoc; reflexivity | intros; count_trace; try reflexivity; congruence].
  - eval_in H. injection H as <- <- <-. split; count_trace; reflexivity.
Qed.

Lemma legacy_register_phase options t br r :
  Legacy.bootstrap options = (t, br) ->
  read (o_register (spread Legacy.defaultOptions options)) = FFun r ->
  match h_result r with
  | Rejects e =>
      count is_EvRun t = 0 /\ count is_EvOnComplete t = 0 /\
      (forall h, read (o_errorHandler (spread Legacy.defaultOptions options)) = FFun h ->
         exists rest, t = EvRegister :: map EvEffect (h_effects r) ++ EvOnError e :: rest) /\
      (truthy (read_val (o_shouldExitOnError (spread Legacy.defaultOptions options))) = false ->
       forall f, read (o_onFinally (spread Legacy.defaultOptions options)) = FFun f ->
       count is_EvOnFinally t = 1) /\
      (truthy (read_val (o_shouldExitOnError (spread Legacy.defaultOptions options))) = true ->
       forall h, read (o_errorHandler (spread Legacy.defaultOptions options)) = FFun h ->
       settles_ok (h_result (h e)) = true ->
       exit_code_error (nullish_or (err_code e) (JNumber 1)) = None ->
       count is_EvOnFinally t = 0 /\
       br = BootReturned (Halt (nullish_or (err_code e) (JNumber 1)))) /\
      (truthy (read_val (o_shouldExitOnError (spread Legacy.defaultOptions options))) = true ->
       forall h, read (o_errorHandler (spread Legacy.defaultOptions options)) = FFun h ->
       settles_ok (h_result (h e)) = true ->
       forall x, exit_code_error (nullish_or (err_code e) (JNumber 1)) = Some x ->
       forall f, read (o_onFinally (spread Legacy.defaultOptions options)) = FFun f ->
       count is_EvOnFinally t = 1)
  | Throws _ => count is_EvRun t = 0 /\ count is_EvOnComplete t = 0
  | _ => forall h, read (o_run (spread Legacy.defaultOptions options)) = FFun h ->
      exists rest, t = EvRegister :: map EvEffect (h_effects r) ++ EvRun :: rest
  end.
Proof.
  destruct options as [reg run oc fin td se eh].
  intros H Hr. unfold_legacy H. unfold spread in *. cbn in H, Hr |- *.
  destruct reg as [[| |r0]|]; cbn in Hr; try discriminate; injection Hr as Hr; subst r0.
  cbn in H.
  destruct (h_result r) eqn:Er; rewrite ?Er in H.
  - intros h Hh. resolve_opt Hh. eval_in H.
    all: injection H as <- <-; eexists; rewrite <- ?app_assoc; reflexivity.
  - intros h Hh. resolve_opt Hh. eval_in H.
    all: injection H as <- <-; eexists; rewrite <- ?app_assoc; reflexivity.
  - eval_in H. all: injection H as <- <-; repeat split; close.

  - eval_in H. injection H as <- <-. split; close.
Qed.

Ltac prefix_done :=
  first [ exists []; rewrite ?app_nil_r; reflexivity
        | eexists; rewrite <- ?app_assoc; reflexivity
        | eexists; cbn; rewrite <- ?app_assoc; cbn; reflexivity ].

Ltac shape_done :=
  repeat (match goal with
          | |- exists _, _ /\ _ => eexists
          | |- exists _, exists _, _ => eexists
          end);
  split; [reflexivity | ];
  repeat (match goal with |- _ /\ _ => split end);
  first [ reflexivity
        | count_trace; reflexivity
        | prefix_done
        | intros; discriminate
        | intros; count_trace; reflexivity ].

Lemma ctl_body_shape run b :
  exists t r, Controller.body run b = (b, t, r) /\ no_halt r = true /\
    count is_EvOnFinally t = 0 /\ count is_termination t = 0 /\
    count is_EvTeardown t = 0.
Proof.
  unfold Controller.body, bind, get, invoke, call_fn, throw. cbn.
  destruct (h_result (Controller.register b)); cbn; try (solve [shape_done]).
  all: destruct run as [| |h]; cbn; try (solve [shape_done]);
    destruct (h_result h); cbn; try (solve [shape_done]);
    destruct (h_result (Controller.onComplete b)); cbn; solve [shape_done].
Qed.

Lemma ctl_catch_shape e b :
  Controller.isBooted b = true ->
  exists b1 t r, Controller.catch_handler e b = (b1, t, r) /\ no_halt r = true /\
    count is_EvOnFinally t = 0 /\
    Controller.onFinally b1 = Controller.onFinally b /\
    (exists rest, t = EvOnError e :: map EvEffect (h_effects (Controller.onError b e)) ++ rest) /\
    (truthy (Controller.shouldExitOnError b) = false -> count is_termination t = 0).
Proof.
  intros Hb.
  unfold Controller.catch_handler, Controller.exit, bind, get, ret, invoke. cbn.
  destruct (h_result (Controller.onError b e)); cbn; try (solve [shape_done]).
  all: destruct (truthy (Controller.shouldExitOnError b)) eqn:Es; cbn; rewrite ?Hb; cbn;
    try (solve [shape_done; discriminate]);
    destruct (h_result (Controller.teardown b)); cbn; solve [shape_done].
Qed.

Lemma ctl_catch_part_shape run b :
  Controller.isBooted b = true ->
  exists b1 t r, m_catch (Controller.body run) Controller.catch_handler b = (b1, t, r) /\
    no_halt r = true /\ count is_EvOnFinally t = 0 /\
    Controller.onFinally b1 = Controller.onFinally b /\
    (truthy (Controller.shouldExitOnError b) = false -> count is_termination t = 0) /\
    (forall t0 v, Controller.body run b = (b, t0, Ok v) -> count is_termination t = 0).
Proof.
  intros Hb. destruct (ctl_body_shape run b) as (t & r & Hbody & Hr & Hf & Ht & _).
  unfold m_catch. rewrite Hbody.
  destruct r as [v|e|c]; try discriminate.
  - do 3 eexists; split; [reflexivity|]; repeat split; auto.
  - destruct (ctl_catch_shape e b Hb) as (b1 & t2 & r2 & Hc & Hr2 & Hf2 & Hon & _ & Ht2).
    rewrite Hc. exists b1, (t ++ t2), r2.
    repeat split; auto; try (rewrite count_app; lia).
    + intros Hs. rewrite count_app, Ht, (Ht2 Hs). reflexivity.
    + intros t0 v Hv. congruence.
Qed.

Lemma ctl_finally_trace b :
  exists r, Controller.finally_handler b =
    (b, EvOnFinally :: map EvEffect (h_effects (Controller.onFinally b)), r)
    /\ no_halt r = true.
Proof.
  unfold Controller.finally_handler, bind, get, invoke, ret. cbn.
  destruct (h_result (Controller.onFinally b)); cbn; rewrite ?app_nil_r;
  eexists; split; reflexivity.
Qed.

Lemma ctl_boot_onFinally b run b' t br :
  is_sync_throw (h_result (Controller.register b)) = false ->
  Controller.boot run b = (b', t, br) ->
  (exists pre, t = pre ++ EvOnFinally :: map EvEffect (h_effects (Controller.onFinally b))
     /\ count is_EvOnFinally pre = 0) /\
  (truthy (Controller.shouldExitOnError b) = false -> count is_termination t = 0) /\
  (forall t0 v, Controller.body run (Controller.with_isBooted b true)
                = (Controller.with_isBooted b true, t0, Ok v) ->
   count is_termination t = 0).
Proof.
  intros Hs H. unfold Controller.boot in H. cbn in H.
  destruct (h_result (Controller.register b)) as [v0|v0|e0|e0] eqn:Er; try discriminate;
  (destruct (ctl_catch_part_shape run (Controller.with_isBooted b true) eq_refl)
     as (b1 & t1 & r1 & Hc & Hr1 & Hf1 & Hon1 & Hs1 & Hok1);
   destruct (ctl_finally_trace b1) as (r2 & Hfin & _);
   unfold Controller.pipeline, m_finally in H; rewrite Hc in H;
   destruct r1 as [v1|e1|c1]; try discriminate;
   rewrite Hfin in H; rewrite Hon1 in H; cbn in H; injection H as <- <- <-;
   (split; [exists t1; split; [reflexivity | exact Hf1] | ]);
   (split; [ intros Hse; rewrite count_app, (Hs1 Hse); count_trace; reflexivity
           | intros t0 w Hb; rewrite count_app, (Hok1 t0 w Hb); count_trace; reflexivity ])).
Qed.

Ltac eval_goal :=
  cbn;
  repeat (match goal with
          | |- context [match ?x with _ => _ end] =>
              lazymatch type of x with
              | prod _ _ => fail
              | res _ => fail
              | jsval => fail
              | _ => let E := fresh "E" in destruct x eqn:E; try congruence
              end
          end; cbn).

Lemma leg_body_shape o :
  exists t r, Legacy.body o tt = (tt, t, r) /\ no_halt r = true /\
    count is_EvOnFinally t = 0 /\ count is_termination t = 0.
Proof.
  unfold Legacy.body, Legacy.start, bind, ret, invoke, call_fn, throw.
  eval_goal; solve [shape_done].
Qed.

Lemma leg_catch_noexit o e :
  truthy (read_val (o_shouldExitOnError o)) = false ->
  exists t r, Legacy.catch_handler o e tt = (tt, t, r) /\ no_halt r = true /\
    count is_EvOnFinally t = 0 /\ count is_termination t = 0 /\
    (forall h, read (o_errorHandler o) = FFun h ->
       t = EvOnError e :: map EvEffect (h_effects (h e))).
Proof.
  intros Hs.
  unfold Legacy.catch_handler, call_handler, bind, ret, invoke, throw, process_exit.
  destruct (read (o_errorHandler o)) as [| |h]; cbn.
  - do 2 eexists; split; [reflexivity|]; repeat split; try discriminate.
  - do 2 eexists; split; [reflexivity|]; repeat split; try discriminate.
  - destruct (h_result (h e)); cbn; rewrite ?Hs; cbn;
    (do 2 eexists; split; [reflexivity|]; repeat split; try (count_trace; reflexivity);
     intros h' Hh; injection Hh as <-; rewrite ?app_nil_r; reflexivity).
Qed.

Lemma leg_catch_exit o e h :
  truthy (read_val (o_shouldExitOnError o)) = true ->
  read (o_errorHandler o) = FFun h ->
  settles_ok (h_result (h e)) = true ->
  Legacy.catch_handler o e tt =
    (tt, EvOnError e :: map EvEffect (h_effects (h e))
           ++ [EvProcessExit (nullish_or (err_code e) (JNumber 1))],
     exit_result (nullish_or (err_code e) (JNumber 1))).
Proof.
  intros Hs Hh Hok.
  unfold Legacy.catch_handler, call_handler, bind, ret, invoke, process_exit.
  rewrite Hh. cbn. destruct (h_result (h e)); try discriminate; cbn; rewrite Hs; reflexivity.
Qed.


Lemma leg_bootstrap_pipeline options :
  (forall r, read (o_register (spread Legacy.defaultOptions options)) = FFun r ->
     is_sync_throw (h_result r) = false) ->
  Legacy.bootstrap options =
    (snd (fst (Legacy.pipeline (spread Legacy.defaultOptions options) tt)),
     BootReturned (snd (Legacy.pipeline (spread Legacy.defaultOptions options) tt))).
Proof.
  intros Hs. unfold Legacy.bootstrap.
  destruct (read (o_register (spread Legacy.defaultOptions options))) as [| |r] eqn:Er.
  1,2: destruct (Legacy.pipeline _ tt) as [[u t] out]; reflexivity.
  specialize (Hs r eq_refl).
  destruct (h_result r); try discriminate;
    destruct (Legacy.pipeline _ tt) as [[u t] out]; reflexivity.
Qed.


Lemma leg_pipeline_halts o e h t0 :
  Legacy.body o tt = (tt, t0, Err e) ->
  truthy (read_val (o_shouldExitOnError o)) = true ->
  read (o_errorHandler o) = FFun h ->
  settles_ok (h_result (h e)) = true ->
  exit_code_error (nullish_or (err_code e) (JNumber 1)) = None ->
  Legacy.pipeline o tt =
    (tt, t0 ++ EvOnError e :: map EvEffect (h_effects (h e))
            ++ [EvProcessExit (nullish_or (err_code e) (JNumber 1))],
     Halt (nullish_or (err_code e) (JNumber 1))).
Proof.
  intros Hb Hs Hh Hok Hc. unfold Legacy.pipeline, m_finally, m_catch.
  rewrite Hb, (leg_catch_exit o e h Hs Hh Hok). unfold exit_result. rewrite Hc.
  reflexivity.
Qed.

(** A code [process.exit] does not accept makes it throw inside the catch
    handler: the chain rejects with that error, and onFinally runs. *)
Lemma leg_pipeline_exit_throws o e h t0 x f :
  Legacy.body o tt = (tt, t0, Err e) ->
  truthy (read_val (o_shouldExitOnError o)) = true ->
  read (o_errorHandler o) = FFun h ->
  settles_ok (h_result (h e)) = true ->
  exit_code_error (nullish_or (err_code e) (JNumber 1)) = Some x ->
  read (o_onFinally o) = FFun f ->
  Legacy.pipeline o tt =
    (tt, (t0 ++ EvOnError e :: map EvEffect (h_effects (h e))
            ++ [EvProcessExit (nullish_or (err_code e) (JNumber 1))])
            ++ EvOnFinally :: map EvEffect (h_effects f),
     match h_result f with
     | Rejects e' | Throws e' => Err e'
     | _ => Err x
     end).
Proof.
  intros Hb Hs Hh Hok Hc Hf. unfold Legacy.pipeline, m_finally, m_catch.
  rewrite Hb, (leg_catch_exit o e h Hs Hh Hok). unfold exit_result. rewrite Hc.
  unfold Legacy.finally_handler, call_fn, bind, invoke, ret. rewrite Hf. cbn.
  destruct (h_result f); cbn; rewrite ?app_nil_r; reflexivity.
Qed.

(** A register hook that throws synchronously escapes both pipelines:
    [boot] / [bootstrap] throw to their caller, no error hook and no
    finaliser is called. *)
Lemma register_sync_throw_escapes :
  Controller.boot (FFun sync_noop) (ctl_with_register (throwing boom))
    = (Controller.with_isBooted (ctl_with_register (throwing boom)) true,
       [EvRegister], BootThrew boom)
  /\ Legacy.bootstrap (opts_with_register (throwing boom)) = ([EvRegister], BootThrew boom).
Proof. split; reflexivity. Qed.

(** ** C1 *)

(** C1.  If register fails, run and onComplete are never called.  If its
    failure is a rejection [e], the error hook is called with [e] right
    after register; then, with exit-on-error off, onFinally is called once.
    In the functional [bootstrap] with exit-on-error on and an error
    handler that completes, [process.exit(e.code ?? 1)] is called: for a
    code it accepts the process ends there and onFinally is never called;
    for one it rejects the call throws and onFinally is called once.  If
    register succeeds, run is called only after register (and its body) in
    the trace. *)
Theorem C1_register_failure :
  (forall b run b' t br,
     Controller.boot run b = (b', t, br) ->
     match h_result (Controller.register b) with
     | Rejects e =>
         count is_EvRun t = 0 /\ count is_EvOnComplete t = 0 /\
         (exists rest, t = EvRegister :: map EvEffect (h_effects (Controller.register b))
                             ++ EvOnError e :: rest) /\
         (truthy (Controller.shouldExitOnError b) = false -> count is_EvOnFinally t = 1)
     | Throws _ => count is_EvRun t = 0 /\ count is_EvOnComplete t = 0
     | _ => forall h, run = FFun h ->
         exists rest, t = EvRegister :: map EvEffect (h_effects (Controller.register b))
                            ++ EvRun :: rest
     end) /\
  (forall options t br r,
     Legacy.bootstrap options = (t, br) ->
     read (o_register (spread Legacy.defaultOptions options)) = FFun r ->
     match h_result r with
     | Rejects e =>
         count is_EvRun t = 0 /\ count is_EvOnComplete t = 0 /\
         (forall h, read (o_errorHandler (spread Legacy.defaultOptions options)) = FFun h ->
            exists rest, t = EvRegister :: map EvEffect (h_effects r) ++ EvOnError e :: rest) /\
         (truthy (read_val (o_shouldExitOnError (spread Legacy.defaultOptions options))) = false ->
          forall f, read (o_onFinally (spread Legacy.defaultOptions options)) = FFun f ->
          count is_EvOnFinally t = 1) /\
         (truthy (read_val (o_shouldExitOnError (spread Legacy.defaultOptions options))) = true ->
          forall h, read (o_errorHandler (spread Legacy.defaultOptions options)) = FFun h ->
          settles_ok (h_result (h e)) = true ->
          exit_code_error (nullish_or (err_code e) (JNumber 1)) = None ->
          count is_EvOnFinally t = 0 /\
          br = BootReturned (Halt (nullish_or (err_code e) (JNumber 1)))) /\
         (truthy (read_val (o_shouldExitOnError (spread Legacy.defaultOptions options))) = true ->
          forall h, read (o_errorHandler (spread Legacy.defaultOptions options)) = FFun h ->
          settles_ok (h_result (h e)) = true ->
          forall x, exit_code_error (nullish_or (err_code e) (JNumber 1)) = Some x ->
          forall f, read (o_onFinally (spread Legacy.defaultOptions options)) = FFun f ->
          count is_EvOnFinally t = 1)
     | Throws _ => count is_EvRun t = 0 /\ count is_EvOnComplete t = 0
     | _ => forall h, read (o_run (spread Legacy.defaultOptions options)) = FFun h ->
         exists rest, t = EvRegister :: map EvEffect (h_effects r) ++ EvRun :: rest
     end).
Proof.
  split.
  - exact controller_register_phase.
  - exact legacy_register_phase.
Qed.

(** The theorem at a rejecting register: with exit-on-error off, onFinally
    runs once (controller and [bootstrap]); with the default, [bootstrap]
    exits with 1 and onFinally does not run. *)
Lemma C1_witness :
  count is_EvOnFinally (snd (fst (Controller.boot (FFun sync_noop)
    (Controller.with_shouldExitOnError (ctl_with_register (rejecting boom)) (JBool false))))) = 1 /\
  count is_EvOnFinally (fst (Legacy.bootstrap (opts_register_noexit (rejecting boom)))) = 1 /\
  count is_EvOnFinally (fst (Legacy.bootstrap (opts_with_register (rejecting boom)))) = 0 /\
  snd (Legacy.bootstrap (opts_with_register (rejecting boom))) = BootReturned (Halt (JNumber 1)).
Proof.
  split; [| split].
  - destruct (Controller.boot (FFun sync_noop)
      (Controller.with_shouldExitOnError (ctl_with_register (rejecting boom)) (JBool false)))
      as [[b' t] br] eqn:E.
    pose proof (proj1 C1_register_failure _ _ _ _ _ E) as H. cbn in H.
    exact (proj2 (proj2 (proj2 H)) eq_refl).
  - destruct (Legacy.bootstrap (opts_register_noexit (rejecting boom))) as [t br] eqn:E.
    pose proof (proj2 C1_register_failure _ _ _ (rejecting boom) E eq_refl) as H. cbn in H.
    exact (proj1 (proj2 (proj2 (proj2 H))) eq_refl sync_noop eq_refl).
  - destruct (Legacy.bootstrap (opts_with_register (rejecting boom))) as [t br] eqn:E.
    pose proof (proj2 C1_register_failure _ _ _ (rejecting boom) E eq_refl) as H. cbn in H.
    exact (proj1 (proj2 (proj2 (proj2 (proj2 H)))) eq_refl console_error eq_refl eq_refl eq_refl).
Defined.

(** C1 as stated fails: with the default exit-on-error, a rejecting register
    makes the functional [bootstrap] exit after the error handler, and
    onFinally never runs. *)
Lemma C1_counterexample :
  Legacy.bootstrap (opts_with_register (rejecting boom))
    = ([EvRegister; EvOnError boom; EvProcessExit (JNumber 1)],
       BootReturned (Halt (JNumber 1)))
  /\ count is_EvOnFinally (fst (Legacy.bootstrap (opts_with_register (rejecting boom)))) = 0.
Proof. split; reflexivity. Qed.

(** ** C2 *)




(** ** C3 *)

Lemma exit_unbooted_state b c :
  Controller.isBooted b = false ->
  Controller.exit (JNumber c) b = (b, [EvProcessExit (JNumber c)], Halt (JNumber c)).
Proof. intros Hb. unfold Controller.exit. rewrite Hb. reflexivity. Qed.

Lemma exit_calls_unbooted cs : forall b b' t r,
  Controller.isBooted b = false ->
  exit_calls cs b = (b', t, r) -> count is_EvTeardown t = 0.
Proof.
  destruct cs as [|c cs']; intros b b' t r Hb H.
  - cbn in H. injection H as _ <- _. reflexivity.
  - change (bind (Controller.exit (JNumber c)) (fun _ => exit_calls cs') b = (b', t, r)) in H.
    unfold bind in H. rewrite (exit_unbooted_state b c Hb) in H.
    injection H as _ <- _. reflexivity.
Qed.

(** C3.  [exit(c)] on an unbooted controller calls [process.exit(c)] at
    once and nothing else; on a booted one it clears [isBooted] and calls
    teardown first.  Hence any sequence of [exit] calls calls teardown at
    most once. *)
Theorem C3_exit_teardown_at_most_once :
  (forall b c, Controller.isBooted b = false ->
     Controller.exit (JNumber c) b = (b, [EvProcessExit (JNumber c)], Halt (JNumber c))) /\
  (forall b c, Controller.isBooted b = true ->
     exists t r, Controller.exit (JNumber c) b = (Controller.with_isBooted b false, EvTeardown :: t, r)
       /\ count is_EvTeardown t = 0 /\ Controller.isBooted (Controller.with_isBooted b false) = false) /\
  (forall cs b b' t r, exit_calls cs b = (b', t, r) -> count is_EvTeardown t <= 1).
Proof.
  split; [exact exit_unbooted_state | split].
  - intros b c Hb. unfold Controller.exit. rewrite Hb. cbn.
    do 2 eexists. split; [reflexivity |]. split; [| reflexivity].
    count_trace. destruct (h_result (Controller.teardown b)); cbn; count_trace; reflexivity.
  - intros [|c cs] b b' t r H.
    + cbn in H. injection H as _ <- _. rewrite count_nil. lia.
    + change (bind (Controller.exit (JNumber c)) (fun _ => exit_calls cs) b = (b', t, r)) in H.
      unfold bind in H.
      destruct (Controller.isBooted b) eqn:Hb.
      * unfold Controller.exit in H at 1. rewrite Hb in H. cbn in H.
        destruct (h_result (Controller.teardown b)) eqn:Et; cbn in H.
        1-3: destruct (exit_calls cs (Controller.with_isBooted b false)) as [[b2 t2] r2] eqn:E;
          injection H as _ <- _;
          pose proof (exit_calls_unbooted cs (Controller.with_isBooted b false) b2 t2 r2 eq_refl E) as E2;
          count_trace; rewrite ?Et; cbn; count_trace; lia.
        injection H as _ <- _. count_trace. rewrite ?Et. cbn. lia.
      * rewrite (exit_unbooted_state b c Hb) in H.
        injection H as _ <- _. count_trace. lia.
Qed.

Lemma C3_witness :
  Controller.exit (JNumber 2) Controller.fresh
    = (Controller.fresh, [EvProcessExit (JNumber 2)], Halt (JNumber 2)) /\
  count is_EvTeardown
    (snd (fst (exit_calls [3; 4; 5]%Z (Controller.with_isBooted Controller.fresh true)))) <= 1.
Proof.
  split.
  - apply (proj1 C3_exit_teardown_at_most_once). reflexivity.
  - destruct (exit_calls [3; 4; 5]%Z (Controller.with_isBooted Controller.fresh true))
      as [[b' t] r] eqn:E.
    exact (proj2 (proj2 C3_exit_teardown_at_most_once) _ _ _ _ _ E).
Defined.

(** ** C4 *)

(** C4.  Each of the five setters throws its "Cannot setX() after boot"
    error and leaves the controller unchanged when [isBooted] is true, and
    replaces its hook when it is false. *)
Theorem C4_setters_guarded :
  guarded_setter Controller.setRegister Controller.register Controller.with_register
    "Cannot setRegister() after boot" /\
  guarded_setter Controller.setTeardown Controller.teardown Controller.with_teardown
    "Cannot setTeardown() after boot" /\
  guarded_setter Controller.setOnComplete Controller.onComplete Controller.with_onComplete
    "Cannot setOnComplete() after boot" /\
  guarded_setter Controller.setOnError Controller.onError Controller.with_onError
    "Cannot setOnError() after boot" /\
  guarded_setter Controller.setOnFinally Controller.onFinally Controller.with_onFinally
    "Cannot setOnFinally() after boot".
Proof.
  unfold guarded_setter, Controller.setRegister, Controller.setTeardown,
    Controller.setOnComplete, Controller.setOnError, Controller.setOnFinally.
  repeat (match goal with |- _ /\ _ => split end);
  intros b0 f0 Hb0; rewrite Hb0; try reflexivity;
  (split; [reflexivity | split; [reflexivity | exact Hb0]]).
Qed.

Lemma C4_witness :
  Controller.setOnFinally async_noop (Controller.with_isBooted Controller.fresh true)
    = (Controller.with_isBooted Controller.fresh true, [],
       Err (config_error "Cannot setOnFinally() after boot")).
Proof.
  apply (proj1 (proj2 (proj2 (proj2 (proj2 C4_setters_guarded))))). reflexivity.
Defined.

(** ** The constructor *)

Lemma ctl_constructor_shape o :
  exists b, Controller.constructor o Controller.fresh = (b, [], Ok tt) /\
    Controller.isBooted b = false /\
    Controller.register b =
      match read (o_register o) with FFun r => r | _ => async_noop end /\
    Controller.shouldExitOnError b =
      (if not_null (read_val (o_shouldExitOnError o))
       then read_val (o_shouldExitOnError o) else JBool true).
Proof.
  unfold Controller.constructor, Controller.when_fn, Controller.setRegister,
    Controller.setOnComplete, Controller.setOnFinally, Controller.setTeardown,
    Controller.setOnError, bind, get, put, ret.
  destruct (read (o_register o)); destruct (read (o_onComplete o));
  destruct (read (o_onFinally o)); destruct (read (o_teardown o));
  destruct (not_null (read_val (o_shouldExitOnError o)));
  destruct (read (o_errorHandler o)); cbn;
  (eexists; split; [reflexivity | repeat split]).
Qed.

(** ** C5 *)

Lemma ctl_body_run_absent run b :
  (forall h, run <> FFun h) ->
  settles_ok (h_result (Controller.register b)) = true ->
  Controller.body run b =
    (b, EvRegister :: map EvEffect (h_effects (Controller.register b)), Err type_error).
Proof.
  intros Hrun Hok.
  unfold Controller.body, bind, get, invoke, call_fn, throw. cbn.
  destruct (h_result (Controller.register b)); try discriminate;
  (destruct run as [| |h]; [| | exfalso; exact (Hrun h eq_refl)]; cbn; rewrite ?app_nil_r; reflexivity).
Qed.

Lemma ctl_body_no_run run b t r :
  (forall h, run <> FFun h) ->
  Controller.body run b = (b, t, r) -> count is_EvRun t = 0.
Proof.
  intros Hrun H.
  unfold Controller.body, bind, get, invoke, call_fn, throw in H. cbn in H.
  destruct (h_result (Controller.register b)); cbn in H;
  try (destruct run as [| |h]; [| | exfalso; exact (Hrun h eq_refl)]); cbn in H;
  injection H as <- _; count_trace; reflexivity.
Qed.

Lemma ctl_catch_no_run e b b1 t r :
  Controller.isBooted b = true ->
  Controller.catch_handler e b = (b1, t, r) -> count is_EvRun t = 0.
Proof.
  intros Hb H.
  unfold Controller.catch_handler, Controller.exit, bind, get, ret, invoke in H. cbn in H.
  destruct (h_result (Controller.onError b e)); cbn in H;
  try (destruct (truthy (Controller.shouldExitOnError b)); cbn in H; rewrite ?Hb in H; cbn in H;
       try destruct (h_result (Controller.teardown b)); cbn in H);
  injection H as _ <- _; count_trace; reflexivity.
Qed.

Lemma ctl_pipeline_no_run run b :
  (forall h, run <> FFun h) ->
  Controller.isBooted b = true ->
  count is_EvRun (snd (fst (Controller.pipeline run b))) = 0.
Proof.
  intros Hrun Hb.
  destruct (ctl_body_shape run b) as (t1 & r1 & Hbody & Hr1 & _).
  pose proof (ctl_body_no_run run b t1 r1 Hrun Hbody) as H1.
  unfold Controller.pipeline, m_finally, m_catch. rewrite Hbody.
  destruct r1 as [v|e|c]; try discriminate.
  - destruct (ctl_finally_trace b) as (rf & Hf & _). rewrite Hf. cbn -[count].
    rewrite count_app, H1. count_trace. reflexivity.
  - destruct (Controller.catch_handler e b) as [[b2 t2] r2] eqn:Ec.
    pose proof (ctl_catch_no_run e b b2 t2 r2 Hb Ec) as H2.
    destruct (ctl_finally_trace b2) as (rf & Hf & _).
    destruct r2; cbn -[Controller.finally_handler]; rewrite ?Hf; cbn -[count];
    rewrite ?count_app, H1, H2; count_trace; reflexivity.
Qed.

Lemma ctl_pipeline_run_absent_error run b :
  (forall h, run <> FFun h) ->
  Controller.isBooted b = true ->
  settles_ok (h_result (Controller.register b)) = true ->
  exists rest, snd (fst (Controller.pipeline run b)) =
    EvRegister :: map EvEffect (h_effects (Controller.register b))
      ++ EvOnError type_error :: rest.
Proof.
  intros Hrun Hb Hok.
  unfold Controller.pipeline, m_finally, m_catch.
  rewrite (ctl_body_run_absent run b Hrun Hok).
  destruct (ctl_catch_shape type_error b Hb)
    as (b2 & t2 & r2 & Hc & Hr2 & _ & _ & (rest & Hrest) & _).
  rewrite Hc. subst t2.
  destruct r2; try discriminate;
  (destruct (Controller.finally_handler b2) as [[b3 t3] r3]; cbn -[count];
   eexists; rewrite <- ?app_assoc; cbn; reflexivity).
Qed.

Lemma leg_body_run_absent o :
  (forall h, read (o_run o) <> FFun h) ->
  (forall r, read (o_register o) = FFun r -> settles_ok (h_result r) = true) ->
  exists t1, Legacy.body o tt = (tt, t1, Err type_error) /\
    count is_EvRun t1 = 0 /\ count is_EvOnError t1 = 0.
Proof.
  intros Hrun Hreg.
  unfold Legacy.body, Legacy.start, bind, ret, invoke, call_fn, throw.
  destruct (read (o_run o)) as [| |h] eqn:Er; [| | exfalso; exact (Hrun h eq_refl)];
  destruct (read (o_register o)) as [| |r] eqn:Eg; cbn;
  try (specialize (Hreg r eq_refl); destruct (h_result r); try discriminate; cbn);
  (eexists; split; [rewrite ?app_nil_r; reflexivity | count_trace; split; reflexivity]).
Qed.

Lemma leg_catch_no_run o e t r :
  Legacy.catch_handler o e tt = (tt, t, r) -> count is_EvRun t = 0.
Proof.
  intros H.
  unfold Legacy.catch_handler, call_handler, bind, ret, invoke, throw, process_exit in H.
  destruct (read (o_errorHandler o)) as [| |h]; cbn in H;
  try (destruct (h_result (h e)); cbn in H;
       try (destruct (truthy (read_val (o_shouldExitOnError o))); cbn in H));
  injection H as <- _; count_trace; reflexivity.
Qed.

Lemma leg_finally_no_run o t r :
  Legacy.finally_handler o tt = (tt, t, r) -> count is_EvRun t = 0.
Proof.
  intros H. unfold Legacy.finally_handler, call_fn, bind, invoke, ret, throw in H.
  destruct (read (o_onFinally o)) as [| |f]; cbn in H;
  try (destruct (h_result f); cbn in H);
  injection H as <- _; count_trace; reflexivity.
Qed.

Lemma leg_pipeline_run_absent o :
  (forall h, read (o_run o) <> FFun h) ->
  (forall r, read (o_register o) = FFun r -> settles_ok (h_result r) = true) ->
  count is_EvRun (snd (fst (Legacy.pipeline o tt))) = 0 /\
  (forall h, read (o_errorHandler o) = FFun h ->
     exists pre rest, snd (fst (Legacy.pipeline o tt)) = pre ++ EvOnError type_error :: rest
       /\ count is_EvOnError pre = 0) /\
  (truthy (read_val (o_shouldExitOnError o)) = true ->
   forall h, read (o_errorHandler o) = FFun h -> settles_ok (h_result (h type_error)) = true ->
   snd (Legacy.pipeline o tt) = Halt (JNumber 1)).
Proof.
  intros Hrun Hreg.
  destruct (leg_body_run_absent o Hrun Hreg) as (t1 & Hbody & H1 & He1).
  split; [| split].
  - unfold Legacy.pipeline, m_finally, m_catch. rewrite Hbody.
    destruct (Legacy.catch_handler o type_error tt) as [[[] t2] r2] eqn:Ec.
    pose proof (leg_catch_no_run o type_error t2 r2 Ec) as H2.
    destruct r2; cbn -[count Legacy.finally_handler];
    try (destruct (Legacy.finally_handler o tt) as [[[] t3] r3] eqn:Ef;
         pose proof (leg_finally_no_run o t3 r3 Ef); cbn -[count]);
    rewrite ?count_app; lia.
  - intros h Hh. unfold Legacy.pipeline, m_finally, m_catch. rewrite Hbody.
    unfold Legacy.catch_handler at 1. unfold call_handler, bind at 1. rewrite Hh.
    unfold invoke at 1.
    destruct (h_result (h type_error)); cbn -[count Legacy.finally_handler];
    try (destruct (truthy (read_val (o_shouldExitOnError o))); cbn -[count Legacy.finally_handler]);
    try (destruct (Legacy.finally_handler o tt) as [[[] t3] r3]; cbn -[count]);
    exists t1; eexists; (split; [rewrite <- ?app_assoc; reflexivity | exact He1]).
  - intros Hs h Hh Hok.
    rewrite (leg_pipeline_halts o type_error h t1 Hbody Hs Hh Hok eq_refl). reflexivity.
Qed.

Lemma ctl_bootstrap_run_absent options :
  (forall h, read (o_run options) <> FFun h) ->
  (forall r, read (o_register (spread Controller.defaultOptions options)) = FFun r ->
     settles_ok (h_result r) = true) ->
  exists b' t br, Controller.bootstrap_fn options = (b', t, inr (BootReturned br)) /\
    count is_EvRun t = 0 /\
    exists pre rest, t = EvRegister :: pre ++ EvOnError type_error :: rest /\
      count is_EvOnError pre = 0.
Proof.
  intros Hrun Hreg.
  destruct (ctl_constructor_shape (spread Controller.defaultOptions options))
    as (b & Hc & Hbk & Hr & _).
  unfold Controller.bootstrap_fn, Controller.new_Bootstrap. rewrite Hc.
  unfold Controller.boot.
  change (Controller.register (Controller.with_isBooted b true)) with (Controller.register b).
  assert (Hok : settles_ok (h_result (Controller.register b)) = true).
  { rewrite Hr. destruct (read (o_register _)) as [| |r] eqn:E; try reflexivity.
    exact (Hreg r eq_refl). }
  pose proof (ctl_pipeline_no_run (read (o_run options)) (Controller.with_isBooted b true) Hrun eq_refl) as Hn.
  destruct (ctl_pipeline_run_absent_error (read (o_run options)) (Controller.with_isBooted b true) Hrun eq_refl Hok)
    as (rest & Hrest).
  destruct (Controller.pipeline (read (o_run options)) (Controller.with_isBooted b true))
    as [[b1 t] out] eqn:Ep.
  cbn in Hn, Hrest.
  destruct (h_result (Controller.register b)); try discriminate;
  (do 3 eexists; split; [reflexivity |]; split; [exact Hn |];
   exists (map EvEffect (h_effects (Controller.register b))), rest;
   split; [exact Hrest | count_trace; reflexivity]).
Qed.

Lemma run_absent_merged d options :
  o_run d = Some FNull ->
  (forall h, read (o_run options) <> FFun h) ->
  forall h, read (o_run (spread d options)) <> FFun h.
Proof.
  intros Hd Hrun h. cbn. rewrite Hd.
  destruct (o_run options) as [v|]; cbn; [exact (Hrun h) | discriminate].
Qed.

Lemma leg_bootstrap_run_absent options :
  (forall h, read (o_run options) <> FFun h) ->
  (forall r, read (o_register (spread Legacy.defaultOptions options)) = FFun r ->
     settles_ok (h_result r) = true) ->
  exists t br, Legacy.bootstrap options = (t, BootReturned br) /\
    count is_EvRun t = 0 /\
    (forall h, read (o_errorHandler (spread Legacy.defaultOptions options)) = FFun h ->
       exists pre rest, t = pre ++ EvOnError type_error :: rest /\ count is_EvOnError pre = 0) /\
    (truthy (read_val (o_shouldExitOnError (spread Legacy.defaultOptions options))) = true ->
     forall h, read (o_errorHandler (spread Legacy.defaultOptions options)) = FFun h ->
     settles_ok (h_result (h type_error)) = true ->
     br = Halt (JNumber 1)).
Proof.
  intros Hrun Hreg.
  assert (Hs : forall r, read (o_register (spread Legacy.defaultOptions options)) = FFun r ->
                 is_sync_throw (h_result r) = false).
  { intros r Er. specialize (Hreg r Er). destruct (h_result r); try discriminate; reflexivity. }
  rewrite (leg_bootstrap_pipeline options Hs).
  destruct (leg_pipeline_run_absent (spread Legacy.defaultOptions options)
              (run_absent_merged Legacy.defaultOptions options eq_refl Hrun) Hreg)
    as (H1 & H2 & H3).
  do 2 eexists. split; [reflexivity |]. auto.
Qed.

(** ** C5 *)

(** C5 (amended).  Neither [bootstrap] checks for [run]: when the options'
    [run] is not a function and the register hook does not fail, the call
    returns normally (no synchronous error), the run hook is never called,
    and the pipeline goes on to call the error handler with the TypeError
    of calling a non-function, as the first error-handler call of the
    trace (for the controller, right after the register hook).  With
    exit-on-error on and an error handler that completes, the functional
    [bootstrap] then terminates with code 1. *)
Theorem C5_run_absent_amended :
  (forall options,
     (forall h, read (o_run options) <> FFun h) ->
     (forall r, read (o_register (spread Controller.defaultOptions options)) = FFun r ->
        settles_ok (h_result r) = true) ->
     exists b' t br, Controller.bootstrap_fn options = (b', t, inr (BootReturned br)) /\
       count is_EvRun t = 0 /\
       exists pre rest, t = EvRegister :: pre ++ EvOnError type_error :: rest /\
         count is_EvOnError pre = 0) /\
  (forall options,
     (forall h, read (o_run options) <> FFun h) ->
     (forall r, read (o_register (spread Legacy.defaultOptions options)) = FFun r ->
        settles_ok (h_result r) = true) ->
     exists t br, Legacy.bootstrap options = (t, BootReturned br) /\
       count is_EvRun t = 0 /\
       (forall h, read (o_errorHandler (spread Legacy.defaultOptions options)) = FFun h ->
          exists pre rest, t = pre ++ EvOnError type_error :: rest /\ count is_EvOnError pre = 0) /\
       (truthy (read_val (o_shouldExitOnError (spread Legacy.defaultOptions options))) = true ->
        forall h, read (o_errorHandler (spread Legacy.defaultOptions options)) = FFun h ->
        settles_ok (h_result (h type_error)) = true ->
        br = Halt (JNumber 1))).
Proof.
  split.
  - exact ctl_bootstrap_run_absent.
  - exact leg_bootstrap_run_absent.
Qed.

Lemma C5_witness :
  (forall h, read (o_run no_options) <> FFun h) /\
  exists t br, Legacy.bootstrap no_options = (t, BootReturned br) /\
    count is_EvRun t = 0 /\
    (forall h, read (o_errorHandler (spread Legacy.defaultOptions no_options)) = FFun h ->
       exists pre rest, t = pre ++ EvOnError type_error :: rest /\ count is_EvOnError pre = 0) /\
    (truthy (read_val (o_shouldExitOnError (spread Legacy.defaultOptions no_options))) = true ->
     forall h, read (o_errorHandler (spread Legacy.defaultOptions no_options)) = FFun h ->
     settles_ok (h_result (h type_error)) = true ->
     br = Halt (JNumber 1)).
Proof.
  split.
  - intros h; discriminate.
  - apply (proj2 C5_run_absent_amended no_options).
    + intros h; discriminate.
    + intros r Er; discriminate.
Defined.

(** C5 as stated fails: [bootstrap] with no [run] returns normally, having
    called the register hook, and the TypeError reaches the error hook
    asynchronously (and then [exit(1)]). *)
Lemma C5_counterexample :
  exists b', Controller.bootstrap_fn no_options
    = (b', [EvRegister; EvOnError type_error; EvTeardown;
            EvExitAfterTeardown (JNumber 1); EvOnFinally],
       inr (BootReturned (Ok JUndefined))) /\
  Legacy.bootstrap no_options
    = ([EvOnError type_error; EvProcessExit (JNumber 1)], BootReturned (Halt (JNumber 1))).
Proof. eexists. split; reflexivity. Qed.

(** ** C6 *)

Lemma ctl_catch_handler_spec e b :
  Controller.catch_handler e b =
   match h_result (Controller.onError b e) with
   | Rejects x | Throws x =>
       (b, EvOnError e :: map EvEffect (h_effects (Controller.onError b e)), Err x)
   | _ =>
       if truthy (Controller.shouldExitOnError b)
       then let '(b1, t1, r1) := Controller.exit (nullish_or (err_code e) (JNumber 1)) b in
            (b1, EvOnError e :: map EvEffect (h_effects (Controller.onError b e)) ++ t1,
             match r1 with Ok _ => Ok JUndefined | Err x => Err x | Halt c => Halt c end)
       else (b, EvOnError e :: map EvEffect (h_effects (Controller.onError b e)), Ok JUndefined)
   end.
Proof.
  unfold Controller.catch_handler, bind, get, invoke, ret. cbn -[Controller.exit].
  destruct (h_result (Controller.onError b e)); cbn -[Controller.exit]; try reflexivity;
  destruct (truthy (Controller.shouldExitOnError b)); cbn -[Controller.exit];
  rewrite ?app_nil_r; try reflexivity;
  destruct (Controller.exit (nullish_or (err_code e) (JNumber 1)) b) as [[b1 t1] [w|x|c]];
  cbn; rewrite ?app_nil_r; reflexivity.
Qed.
Lemma leg_catch_handler_spec o e :
  Legacy.catch_handler o e tt =
   match read (o_errorHandler o) with
   | FFun h =>
       match h_result (h e) with
       | Rejects x | Throws x => (tt, EvOnError e :: map EvEffect (h_effects (h e)), Err x)
       | _ =>
           if truthy (read_val (o_shouldExitOnError o))
           then (tt, EvOnError e :: map EvEffect (h_effects (h e))
                      ++ [EvProcessExit (nullish_or (err_code e) (JNumber 1))],
                 exit_result (nullish_or (err_code e) (JNumber 1)))
           else (tt, EvOnError e :: map EvEffect (h_effects (h e)), Ok JUndefined)
       end
   | _ => (tt, [], Err type_error)
   end.
Proof.
  unfold Legacy.catch_handler, call_handler, bind, invoke, ret, throw, process_exit.
  destruct (read (o_errorHandler o)) as [| |h]; cbn; try reflexivity.
  destruct (h_result (h e)); cbn; try reflexivity;
  destruct (truthy (read_val (o_shouldExitOnError o))); cbn; rewrite ?app_nil_r; reflexivity.
Qed.

Lemma ctl_body_no_onError run b :
  count is_EvOnError (snd (fst (Controller.body run b))) = 0.
Proof.
  unfold Controller.body, bind, get, invoke, call_fn, throw. cbn.
  destruct (h_result (Controller.register b)); cbn; try (count_trace; reflexivity).
  all: destruct run as [| |h]; cbn; try (count_trace; reflexivity);
    destruct (h_result h); cbn; try (count_trace; reflexivity);
    destruct (h_result (Controller.onComplete b)); cbn; count_trace; reflexivity.
Qed.

Lemma leg_body_no_onError o :
  count is_EvOnError (snd (fst (Legacy.body o tt))) = 0.
Proof.
  unfold Legacy.body, Legacy.start, bind, ret, invoke, call_fn, throw.
  eval_goal; count_trace; reflexivity.
Qed.

Lemma ctl_body_failure_routes run b t0 e :
  Controller.body run b = (b, t0, Err e) ->
  count is_EvOnError t0 = 0 /\ count is_termination t0 = 0 /\
  m_catch (Controller.body run) Controller.catch_handler b =
    (let '(b2, t2, r2) := Controller.catch_handler e b in (b2, t0 ++ t2, r2)).
Proof.
  intros H.
  pose proof (ctl_body_no_onError run b) as H1. rewrite H in H1.
  destruct (ctl_body_shape run b) as (t & r & Hb & _ & _ & Ht & _).
  rewrite H in Hb. injection Hb as <- <-.
  split; [exact H1 | split; [exact Ht |]].
  unfold m_catch. rewrite H. reflexivity.
Qed.

Lemma leg_body_failure_routes o t0 e :
  Legacy.body o tt = (tt, t0, Err e) ->
  count is_EvOnError t0 = 0 /\ count is_termination t0 = 0 /\
  m_catch (Legacy.body o) (Legacy.catch_handler o) tt =
    (let '(u, t2, r2) := Legacy.catch_handler o e tt in (u, t0 ++ t2, r2)).
Proof.
  intros H.
  pose proof (leg_body_no_onError o) as H1. rewrite H in H1.
  destruct (leg_body_shape o) as (t & r & Hb & _ & _ & Ht).
  rewrite H in Hb. injection Hb as <- <-.
  split; [exact H1 | split; [exact Ht |]].
  unfold m_catch. rewrite H. reflexivity.
Qed.

(** C6.  A failure [e] of register (a rejection), run or onComplete
    reaches the [.catch] handler with no earlier call of the error hook and
    no termination; the handler calls the error hook with [e] and waits for
    it.  If the hook fails, exit is not called and its failure is passed
    on.  If it completes, exit ([process.exit] in the functional
    [bootstrap]) is called iff [shouldExitOnError] is truthy, with
    [e.code ?? 1]: any code that is not null or undefined, whether a number
    or not.  In the functional [bootstrap], [process.exit] ends the process
    for a code it accepts and throws for any other, and that error is what
    the handler rejects with; an error handler that is not a function fails
    with a TypeError. *)
Theorem C6_catch_path :
  (forall run b t0 e,
     Controller.body run b = (b, t0, Err e) ->
     count is_EvOnError t0 = 0 /\ count is_termination t0 = 0 /\
     m_catch (Controller.body run) Controller.catch_handler b =
       (let '(b2, t2, r2) := Controller.catch_handler e b in (b2, t0 ++ t2, r2))) /\
  (forall e b,
     Controller.catch_handler e b =
     match h_result (Controller.onError b e) with
     | Rejects x | Throws x =>
         (b, EvOnError e :: map EvEffect (h_effects (Controller.onError b e)), Err x)
     | _ =>
         if truthy (Controller.shouldExitOnError b)
         then let '(b1, t1, r1) := Controller.exit (nullish_or (err_code e) (JNumber 1)) b in
              (b1, EvOnError e :: map EvEffect (h_effects (Controller.onError b e)) ++ t1,
               match r1 with Ok _ => Ok JUndefined | Err x => Err x | Halt c => Halt c end)
         else (b, EvOnError e :: map EvEffect (h_effects (Controller.onError b e)), Ok JUndefined)
     end) /\
  (forall o t0 e,
     Legacy.body o tt = (tt, t0, Err e) ->
     count is_EvOnError t0 = 0 /\ count is_termination t0 = 0 /\
     m_catch (Legacy.body o) (Legacy.catch_handler o) tt =
       (let '(u, t2, r2) := Legacy.catch_handler o e tt in (u, t0 ++ t2, r2))) /\
  (forall o e,
     Legacy.catch_handler o e tt =
     match read (o_errorHandler o) with
     | FFun h =>
         match h_result (h e) with
         | Rejects x | Throws x => (tt, EvOnError e :: map EvEffect (h_effects (h e)), Err x)
         | _ =>
             if truthy (read_val (o_shouldExitOnError o))
             then (tt, EvOnError e :: map EvEffect (h_effects (h e))
                        ++ [EvProcessExit (nullish_or (err_code e) (JNumber 1))],
                   exit_result (nullish_or (err_code e) (JNumber 1)))
             else (tt, EvOnError e :: map EvEffect (h_effects (h e)), Ok JUndefined)
         end
     | _ => (tt, [], Err type_error)
     end).
Proof.
  split; [exact ctl_body_failure_routes |].
  split; [exact ctl_catch_handler_spec |].
  split; [exact leg_body_failure_routes | exact leg_catch_handler_spec].
Qed.

Lemma C6_witness :
  count is_EvOnError [EvRun] = 0 /\ count is_termination [EvRun] = 0 /\
  m_catch (Legacy.body (spread Legacy.defaultOptions (opts_with_run (rejecting enoent))))
    (Legacy.catch_handler (spread Legacy.defaultOptions (opts_with_run (rejecting enoent)))) tt
  = (tt, [EvRun; EvOnError enoent; EvProcessExit (JString "ENOENT")],
     Err invalid_arg_type).
Proof.
  exact (proj1 (proj2 (proj2 C6_catch_path))
           (spread Legacy.defaultOptions (opts_with_run (rejecting enoent))) [EvRun] enoent
           eq_refl).
Defined.

(** C6 as stated fails twice.  An error hook that rejects keeps the
    controller from calling exit although [shouldExitOnError] is [true].
    And a string [code] is passed to [process.exit] as it is, not replaced
    by 1: there [process.exit("ENOENT")] throws, the chain rejects with
    that TypeError after onFinally, and the process is not terminated. *)
Lemma C6_counterexample :
  Controller.boot (FFun (rejecting boom))
    (Controller.with_onError Controller.fresh (fun _ => rejecting boom))
  = (Controller.with_isBooted
       (Controller.with_onError Controller.fresh (fun _ => rejecting boom)) true,
     [EvRegister; EvRun; EvOnError boom; EvOnFinally], BootReturned (Err boom)) /\
  Controller.shouldExitOnError Controller.fresh = JBool true /\
  Legacy.bootstrap (opts_with_run (rejecting enoent))
  = ([EvRun; EvOnError enoent; EvProcessExit (JString "ENOENT"); EvOnFinally],
     BootReturned (Err invalid_arg_type)).
Proof. split; [| split]; reflexivity. Qed.

(** ** C7 *)

Lemma ctl_exit_after_teardown b c :
  Controller.isBooted b = true ->
  is_sync_throw (h_result (Controller.teardown b)) = false ->
  Controller.exit (JNumber c) b =
    (Controller.with_isBooted b false,
     EvTeardown :: map EvEffect (h_effects (Controller.teardown b))
       ++ [EvExitAfterTeardown (JNumber c)], Ok tt).
Proof.
  intros Hb Hs. unfold Controller.exit. rewrite Hb. cbn.
  destruct (h_result (Controller.teardown b)); try discriminate; reflexivity.
Qed.

(** ** C8 *)

Lemma ctl_boot_no_exit_when_off b run b' t br :
  truthy (Controller.shouldExitOnError b) = false ->
  Controller.boot run b = (b', t, br) -> count is_termination t = 0.
Proof.
  intros Hse H.
  destruct (is_sync_throw (h_result (Controller.register b))) eqn:Hs.
  - unfold Controller.boot in H. cbn in H.
    destruct (h_result (Controller.register b)); try discriminate.
    injection H as _ <- _. count_trace. reflexivity.
  - exact (proj1 (proj2 (ctl_boot_onFinally b run b' t br Hs H)) Hse).
Qed.

Lemma leg_finally_quiet o :
  count is_termination (snd (fst (Legacy.finally_handler o tt))) = 0.
Proof.
  unfold Legacy.finally_handler, call_fn, bind, invoke, ret, throw.
  destruct (read (o_onFinally o)) as [| |f]; cbn; try (count_trace; reflexivity).
  destruct (h_result f); cbn; count_trace; reflexivity.
Qed.

Lemma leg_pipeline_quiet o :
  truthy (read_val (o_shouldExitOnError o)) = false ->
  count is_termination (snd (fst (Legacy.pipeline o tt))) = 0.
Proof.
  intros Hs.
  pose proof (leg_finally_quiet o) as Hq.
  destruct (Legacy.finally_handler o tt) as [[u tf] rf] eqn:Ef. cbn in Hq.
  destruct (leg_body_shape o) as (t & r & Hb & Hr & _ & Hbt).
  unfold Legacy.pipeline, m_finally, m_catch. rewrite Hb.
  destruct r as [v|e|c]; try discriminate.
  - rewrite Ef. cbn -[count]. rewrite count_app, Hbt, Hq. reflexivity.
  - destruct (leg_catch_noexit o e Hs) as (t2 & r2 & Hc & Hr2 & _ & Ht2 & _).
    rewrite Hc. destruct r2; try discriminate; destruct u; rewrite Ef; cbn -[count];
    rewrite !count_app, Hbt, Ht2, Hq; reflexivity.
Qed.

Lemma leg_bootstrap_no_exit_when_off options :
  truthy (read_val (o_shouldExitOnError (spread Legacy.defaultOptions options))) = false ->
  count is_termination (fst (Legacy.bootstrap options)) = 0.
Proof.
  intros Hs. pose proof (leg_pipeline_quiet _ Hs) as Hq.
  unfold Legacy.bootstrap.
  destruct (Legacy.pipeline (spread Legacy.defaultOptions options) tt) as [[u t] out].
  cbn in Hq.
  destruct (read (o_register (spread Legacy.defaultOptions options))) as [| |r]; cbn; auto.
  destruct (h_result r); cbn; auto. count_trace. reflexivity.
Qed.

Lemma ctl_boot_exit_on_failure b run t0 e :
  is_sync_throw (h_result (Controller.register b)) = false ->
  Controller.body run (Controller.with_isBooted b true)
    = (Controller.with_isBooted b true, t0, Err e) ->
  truthy (Controller.shouldExitOnError b) = true ->
  settles_ok (h_result (Controller.onError b e)) = true ->
  is_sync_throw (h_result (Controller.teardown b)) = false ->
  exists b' rest br, Controller.boot run b =
    (b', t0 ++ EvOnError e :: map EvEffect (h_effects (Controller.onError b e))
           ++ EvTeardown :: map EvEffect (h_effects (Controller.teardown b))
           ++ EvExitAfterTeardown (nullish_or (err_code e) (JNumber 1)) :: rest, br).
Proof.
  intros Hs Hbody Hse Hok Htd.
  unfold Controller.boot.
  change (Controller.register (Controller.with_isBooted b true)) with (Controller.register b).
  unfold Controller.pipeline, m_finally, m_catch. rewrite Hbody.
  rewrite ctl_catch_handler_spec.
  change (Controller.onError (Controller.with_isBooted b true)) with (Controller.onError b).
  change (Controller.shouldExitOnError (Controller.with_isBooted b true))
    with (Controller.shouldExitOnError b).
  rewrite Hse.
  assert (Hx : Controller.exit (nullish_or (err_code e) (JNumber 1)) (Controller.with_isBooted b true)
    = (Controller.with_isBooted b false,
       EvTeardown :: map EvEffect (h_effects (Controller.teardown b))
         ++ [EvExitAfterTeardown (nullish_or (err_code e) (JNumber 1))], Ok tt)).
  { unfold Controller.exit, nullish_or. cbn.
    destruct (h_result (Controller.teardown b)); try discriminate;
    destruct (err_code e); reflexivity. }
  rewrite Hx.
  destruct (h_result (Controller.register b)); try discriminate;
  (destruct (h_result (Controller.onError b e)); try discriminate;
   destruct (Controller.finally_handler (Controller.with_isBooted b false)) as [[b3 t3] r3];
   exists b3, t3; eexists; cbn;
   repeat (rewrite <- app_comm_cons || rewrite <- app_assoc); reflexivity).
Qed.

Lemma leg_bootstrap_exit_on_failure options t0 e h :
  (forall r, read (o_register (spread Legacy.defaultOptions options)) = FFun r ->
     is_sync_throw (h_result r) = false) ->
  Legacy.body (spread Legacy.defaultOptions options) tt = (tt, t0, Err e) ->
  truthy (read_val (o_shouldExitOnError (spread Legacy.defaultOptions options))) = true ->
  read (o_errorHandler (spread Legacy.defaultOptions options)) = FFun h ->
  settles_ok (h_result (h e)) = true ->
  exit_code_error (nullish_or (err_code e) (JNumber 1)) = None ->
  Legacy.bootstrap options =
    (t0 ++ EvOnError e :: map EvEffect (h_effects (h e))
        ++ [EvProcessExit (nullish_or (err_code e) (JNumber 1))],
     BootReturned (Halt (nullish_or (err_code e) (JNumber 1)))).
Proof.
  intros Hs Hb Hse Hh Hok Hc.
  rewrite (leg_bootstrap_pipeline options Hs), (leg_pipeline_halts _ e h t0 Hb Hse Hh Hok Hc).
  reflexivity.
Qed.

(** For a code [process.exit] rejects, the functional [bootstrap] calls it
    once, which throws; the returned promise rejects and nothing ends the
    process. *)
Lemma leg_bootstrap_exit_throws options t0 e h x f :
  (forall r, read (o_register (spread Legacy.defaultOptions options)) = FFun r ->
     is_sync_throw (h_result r) = false) ->
  Legacy.body (spread Legacy.defaultOptions options) tt = (tt, t0, Err e) ->
  truthy (read_val (o_shouldExitOnError (spread Legacy.defaultOptions options))) = true ->
  read (o_errorHandler (spread Legacy.defaultOptions options)) = FFun h ->
  settles_ok (h_result (h e)) = true ->
  exit_code_error (nullish_or (err_code e) (JNumber 1)) = Some x ->
  read (o_onFinally (spread Legacy.defaultOptions options)) = FFun f ->
  count is_termination (fst (Legacy.bootstrap options)) = 1 /\
  exists x', snd (Legacy.bootstrap options) = BootReturned (Err x').
Proof.
  intros Hs Hb Hse Hh Hok Hc Hf.
  rewrite (leg_bootstrap_pipeline options Hs),
          (leg_pipeline_exit_throws _ e h t0 x f Hb Hse Hh Hok Hc Hf). cbn -[count].
  destruct (leg_body_shape (spread Legacy.defaultOptions options)) as (t1 & r1 & Hb1 & _ & _ & Ht1).
  rewrite Hb in Hb1. injection Hb1 as <- _.
  split.
  - count_trace. rewrite Ht1. reflexivity.
  - destruct (h_result f); eexists; reflexivity.
Qed.

(** C7.  [exit(c)] on a booted controller whose teardown does not throw
    synchronously (it returns, resolves or rejects) clears [isBooted],
    calls teardown, and calls [process.exit(c)] once the teardown promise
    settles, with [c] itself whatever the outcome of teardown. *)
Theorem C7_exit_after_teardown :
  forall b c,
    Controller.isBooted b = true ->
    is_sync_throw (h_result (Controller.teardown b)) = false ->
    Controller.exit (JNumber c) b =
      (Controller.with_isBooted b false,
       EvTeardown :: map EvEffect (h_effects (Controller.teardown b))
         ++ [EvExitAfterTeardown (JNumber c)], Ok tt).
Proof. exact ctl_exit_after_teardown. Qed.

Lemma C7_witness :
  Controller.exit (JNumber 3)
    (Controller.with_teardown (Controller.with_isBooted Controller.fresh true) (rejecting boom))
  = (Controller.with_isBooted
       (Controller.with_teardown (Controller.with_isBooted Controller.fresh true) (rejecting boom))
       false,
     [EvTeardown; EvExitAfterTeardown (JNumber 3)], Ok tt).
Proof.
  exact (C7_exit_after_teardown
           (Controller.with_teardown (Controller.with_isBooted Controller.fresh true)
              (rejecting boom)) 3 eq_refl eq_refl).
Defined.

(** C7 fails for a teardown that throws synchronously: [exit(3)] throws
    before [Promise.resolve] is reached, so [process.exit] is never
    called. *)
Lemma C7_counterexample :
  Controller.exit (JNumber 3)
    (Controller.with_teardown (Controller.with_isBooted Controller.fresh true) (throwing boom))
  = (Controller.with_isBooted
       (Controller.with_teardown (Controller.with_isBooted Controller.fresh true) (throwing boom))
       false,
     [EvTeardown], Err boom) /\
  count is_termination
    (snd (fst (Controller.exit (JNumber 3)
       (Controller.with_teardown (Controller.with_isBooted Controller.fresh true)
          (throwing boom))))) = 0.
Proof. split; reflexivity. Qed.

(** C8.  With [shouldExitOnError] falsy, no call of [boot] or [bootstrap]
    calls [process.exit].  With it truthy, take a failure [e] of register
    (a rejection), run or onComplete, after which the error hook completes.
    The controller calls [process.exit(e.code ?? 1)] once teardown settles
    (if teardown does not throw synchronously).  The functional [bootstrap]
    calls [process.exit(e.code ?? 1)] at once: for a code that call accepts
    the process ends with it, which is [0] when [e.code] is [0]; for any
    other code the call throws, the returned promise rejects and the
    process is not terminated. *)
Theorem C8_exit_on_error :
  (forall b run b' t br,
     truthy (Controller.shouldExitOnError b) = false ->
     Controller.boot run b = (b', t, br) -> count is_termination t = 0) /\
  (forall b run t0 e,
     is_sync_throw (h_result (Controller.register b)) = false ->
     Controller.body run (Controller.with_isBooted b true)
       = (Controller.with_isBooted b true, t0, Err e) ->
     truthy (Controller.shouldExitOnError b) = true ->
     settles_ok (h_result (Controller.onError b e)) = true ->
     is_sync_throw (h_result (Controller.teardown b)) = false ->
     exists b' rest br, Controller.boot run b =
       (b', t0 ++ EvOnError e :: map EvEffect (h_effects (Controller.onError b e))
              ++ EvTeardown :: map EvEffect (h_effects (Controller.teardown b))
              ++ EvExitAfterTeardown (nullish_or (err_code e) (JNumber 1)) :: rest, br)) /\
  (forall options,
     truthy (read_val (o_shouldExitOnError (spread Legacy.defaultOptions options))) = false ->
     count is_termination (fst (Legacy.bootstrap options)) = 0) /\
  (forall options t0 e h,
     (forall r, read (o_register (spread Legacy.defaultOptions options)) = FFun r ->
        is_sync_throw (h_result r) = false) ->
     Legacy.body (spread Legacy.defaultOptions options) tt = (tt, t0, Err e) ->
     truthy (read_val (o_shouldExitOnError (spread Legacy.defaultOptions options))) = true ->
     read (o_errorHandler (spread Legacy.defaultOptions options)) = FFun h ->
     settles_ok (h_result (h e)) = true ->
     exit_code_error (nullish_or (err_code e) (JNumber 1)) = None ->
     Legacy.bootstrap options =
       (t0 ++ EvOnError e :: map EvEffect (h_effects (h e))
           ++ [EvProcessExit (nullish_or (err_code e) (JNumber 1))],
        BootReturned (Halt (nullish_or (err_code e) (JNumber 1))))) /\
  (forall options t0 e h x f,
     (forall r, read (o_register (spread Legacy.defaultOptions options)) = FFun r ->
        is_sync_throw (h_result r) = false) ->
     Legacy.body (spread Legacy.defaultOptions options) tt = (tt, t0, Err e) ->
     truthy (read_val (o_shouldExitOnError (spread Legacy.defaultOptions options))) = true ->
     read (o_errorHandler (spread Legacy.defaultOptions options)) = FFun h ->
     settles_ok (h_result (h e)) = true ->
     exit_code_error (nullish_or (err_code e) (JNumber 1)) = Some x ->
     read (o_onFinally (spread Legacy.defaultOptions options)) = FFun f ->
     count is_termination (fst (Legacy.bootstrap options)) = 1 /\
     exists x', snd (Legacy.bootstrap options) = BootReturned (Err x')).
Proof.
  split; [exact ctl_boot_no_exit_when_off |].
  split; [exact ctl_boot_exit_on_failure |].
  split; [exact leg_bootstrap_no_exit_when_off |].
  split; [exact leg_bootstrap_exit_on_failure | exact leg_bootstrap_exit_throws].
Qed.

(** A failure without a code exits with 1; one whose code is [0] exits
    with 0; one whose code is ["ENOENT"] makes [process.exit] throw; with
    exit-on-error off nothing exits. *)
Lemma C8_witness :
  Legacy.bootstrap (opts_with_run (rejecting boom))
  = ([EvRun; EvOnError boom; EvProcessExit (JNumber 1)], BootReturned (Halt (JNumber 1))) /\
  Legacy.bootstrap (opts_with_run (rejecting code_zero))
  = ([EvRun; EvOnError code_zero; EvProcessExit (JNumber 0)], BootReturned (Halt (JNumber 0))) /\
  (exists x', snd (Legacy.bootstrap (opts_with_run (rejecting enoent))) = BootReturned (Err x')) /\
  count is_termination
    (fst (Legacy.bootstrap
       (mkOptions None (Some (FFun (rejecting boom))) None None None
          (Some (JBool false)) None))) = 0.
Proof.
  split; [| split; [| split]].
  - apply (proj1 (proj2 (proj2 (proj2 C8_exit_on_error)))
             (opts_with_run (rejecting boom)) [EvRun] boom console_error);
    try reflexivity.
    intros r Er; discriminate.
  - apply (proj1 (proj2 (proj2 (proj2 C8_exit_on_error)))
             (opts_with_run (rejecting code_zero)) [EvRun] code_zero console_error);
    try reflexivity.
    intros r Er; discriminate.
  - refine (proj2 (proj2 (proj2 (proj2 (proj2 C8_exit_on_error)))
             (opts_with_run (rejecting enoent)) [EvRun] enoent console_error
             invalid_arg_type sync_noop _ eq_refl eq_refl eq_refl eq_refl eq_refl eq_refl)).
    intros r Er; discriminate.
  - exact (proj1 (proj2 (proj2 C8_exit_on_error))
             (mkOptions None (Some (FFun (rejecting boom))) None None None
                (Some (JBool false)) None) eq_refl).
Defined.

(** C8 as stated fails.  With exit-on-error on, an error whose [code] is
    [0] makes the functional [bootstrap] exit with [0]; one whose [code] is
    ["ENOENT"] makes [process.exit] throw, so the process is not
    terminated; and a register hook that throws synchronously escapes the
    controller's [boot] before any exit is requested. *)
Lemma C8_counterexample :
  Legacy.bootstrap (opts_with_run (rejecting code_zero))
  = ([EvRun; EvOnError code_zero; EvProcessExit (JNumber 0)],
     BootReturned (Halt (JNumber 0))) /\
  Legacy.bootstrap (opts_with_run (rejecting enoent))
  = ([EvRun; EvOnError enoent; EvProcessExit (JString "ENOENT"); EvOnFinally],
     BootReturned (Err invalid_arg_type)) /\
  count is_termination
    (snd (fst (Controller.boot (FFun sync_noop) (ctl_with_register (throwing boom))))) = 0 /\
  truthy (Controller.shouldExitOnError (ctl_with_register (throwing boom))) = true.
Proof. split; [| split; [| split]]; reflexivity. Qed.

(** ** C9 *)

Lemma first_settle_skip l t :
  settles_nothing l = true -> Controller.first_settle (map EvEffect l ++ t) = Controller.first_settle t.
Proof.
  induction l as [|x l IH]; cbn; [reflexivity |].
  destruct x as [n|s]; cbn; [exact IH | discriminate].
Qed.

Lemma first_settle_none l :
  settles_nothing l = true -> Controller.first_settle (map EvEffect l) = None.
Proof.
  intros Hn. rewrite <- (app_nil_r (map EvEffect l)), first_settle_skip by exact Hn.
  reflexivity.
Qed.

(** C9.  For a register hook [r] (whose body cannot reach [accept] or
    [reject]), the promise of [bootstrapPromise(r)] settles: it is
    fulfilled when [r] returns or resolves, and the run hook [accept] is
    reached; it is rejected with [r]'s own error when [r] rejects or throws.
    No call of [process.exit] happens in any case. *)
Theorem C9_bootstrapPromise_settles r :
  settles_nothing (h_effects r) = true ->
  exists b' t s, Controller.bootstrapPromise r = (b', t, Some s) /\
    count is_termination t = 0 /\
    s = match h_result r with
        | Returns _ | Resolves _ => Fulfilled
        | Rejects e | Throws e => Rejected e
        end.
Proof.
  intros Hn.
  unfold Controller.bootstrapPromise, Controller.new_Bootstrap, Controller.constructor,
    Controller.when_fn, Controller.setRegister, Controller.setOnComplete,
    Controller.setOnFinally, Controller.setTeardown, Controller.setOnError,
    Controller.bootAsync, Controller.boot, Controller.pipeline, m_finally, m_catch,
    Controller.body, Controller.catch_handler, Controller.finally_handler,
    bind, get, put, ret, invoke, call_fn, truthy.
  cbn.
  destruct (h_result r); cbn;
  rewrite <- ?app_assoc, ?first_settle_skip, ?first_settle_none by exact Hn; cbn;
  (do 3 eexists; split; [reflexivity |]);
  (split; [count_trace; reflexivity | reflexivity]).
Qed.

Lemma C9_witness :
  exists b' t s,
    Controller.bootstrapPromise (Hook [EffLog 1] (Rejects boom)) = (b', t, Some s) /\
    count is_termination t = 0 /\ s = Rejected boom.
Proof.
  apply (C9_bootstrapPromise_settles (Hook [EffLog 1] (Rejects boom))). reflexivity.
Defined.

(** ** C10 *)

(** C10.  [new Bootstrap(options)] with no [shouldExitOnError] property
    replaces the initial [true] by [undefined] (the guard [!== null]
    passes), which is falsy: exit-on-error is off, and no later [boot]
    terminates the process. *)
Theorem C10_constructor_undefined_exit_flag o :
  o_shouldExitOnError o = None ->
  exists b, Controller.new_Bootstrap (Some o) = (b, [], Ok tt) /\
    Controller.shouldExitOnError Controller.fresh = JBool true /\
    Controller.shouldExitOnError b = JUndefined /\
    truthy (Controller.shouldExitOnError b) = false /\
    (forall run b' t br, Controller.boot run b = (b', t, br) -> count is_termination t = 0).
Proof.
  intros Ho.
  destruct (ctl_constructor_shape o) as (b & Hc & _ & _ & Hse).
  rewrite Ho in Hse. cbn in Hse.
  exists b. split; [exact Hc |]. split; [reflexivity |].
  assert (Hf : truthy (Controller.shouldExitOnError b) = false) by (rewrite Hse; reflexivity).
  split; [exact Hse |]. split; [exact Hf |].
  intros run b' t br H. exact (ctl_boot_no_exit_when_off b run b' t br Hf H).
Qed.

Lemma C10_witness :
  exists b, Controller.new_Bootstrap (Some (opts_with_register (rejecting boom))) = (b, [], Ok tt) /\
    Controller.shouldExitOnError Controller.fresh = JBool true /\
    Controller.shouldExitOnError b = JUndefined /\
    truthy (Controller.shouldExitOnError b) = false /\
    (forall run b' t br, Controller.boot run b = (b', t, br) -> count is_termination t = 0).
Proof.
  apply (C10_constructor_undefined_exit_flag (opts_with_register (rejecting boom))).
  reflexivity.
Defined.

(** * Further properties of the code *)

(** ** The constructor *)

(** [new Bootstrap(options)] leaves the controller unbooted and keeps each
    hook given as a function, the default otherwise.  [shouldExitOnError]
    stays [true] only when the option is [null]; any other value, an
    absent or [undefined] one included, replaces it. *)
Theorem X_constructor_fields o :
  exists b, Controller.new_Bootstrap (Some o) = (b, [], Ok tt) /\
    Controller.isBooted b = false /\
    Controller.register b =
      match read (o_register o) with FFun f => f | _ => async_noop end /\
    Controller.onComplete b =
      match read (o_onComplete o) with FFun f => f | _ => async_noop end /\
    Controller.onFinally b =
      match read (o_onFinally o) with FFun f => f | _ => async_noop end /\
    Controller.teardown b =
      match read (o_teardown o) with FFun f => f | _ => async_noop end /\
    Controller.onError b =
      match read (o_errorHandler o) with FFun f => f | _ => console_error end /\
    Controller.shouldExitOnError b =
      (if not_null (read_val (o_shouldExitOnError o))
       then read_val (o_shouldExitOnError o) else JBool true).
Proof.
  unfold Controller.new_Bootstrap, Controller.constructor, Controller.when_fn,
    Controller.setRegister, Controller.setOnComplete, Controller.setOnFinally,
    Controller.setTeardown, Controller.setOnError, bind, get, put, ret.
  destruct (read (o_register o)); destruct (read (o_onComplete o));
  destruct (read (o_onFinally o)); destruct (read (o_teardown o));
  destruct (not_null (read_val (o_shouldExitOnError o)));
  destruct (read (o_errorHandler o)); cbn;
  (eexists; split; [reflexivity | repeat split]).
Qed.

(** ** What [boot] changes *)

Lemma ctl_exit_state c b b1 t r :
  Controller.isBooted b = true ->
  Controller.exit c b = (b1, t, r) ->
  b1 = Controller.with_isBooted b false /\ count is_EvTeardown t = 1.
Proof.
  intros Hb H. unfold Controller.exit in H. rewrite Hb in H. cbn in H.
  injection H as <- <- _. split; [reflexivity |].
  count_trace. destruct (is_sync_throw _); count_trace; reflexivity.
Qed.

Lemma ctl_catch_state e b b1 t r :
  Controller.isBooted b = true ->
  Controller.catch_handler e b = (b1, t, r) ->
  (b1 = b /\ count is_EvTeardown t = 0) \/
  (b1 = Controller.with_isBooted b false /\ count is_EvTeardown t = 1 /\
   truthy (Controller.shouldExitOnError b) = true).
Proof.
  intros Hb H. rewrite ctl_catch_handler_spec in H.
  destruct (h_result (Controller.onError b e));
  try (injection H as <- <- _; left; split; [reflexivity | count_trace; reflexivity]);
  destruct (truthy (Controller.shouldExitOnError b)) eqn:Hs;
  try (injection H as <- <- _; left; split; [reflexivity | count_trace; reflexivity]);
  destruct (Controller.exit (nullish_or (err_code e) (JNumber 1)) b) as [[b2 t2] r2] eqn:Ex;
  destruct (ctl_exit_state _ b b2 t2 r2 Hb Ex) as [-> Ht];
  injection H as <- <- _; right; (split; [reflexivity | split; [| reflexivity]]);
  count_trace; exact Ht.
Qed.

Lemma ctl_boot_frame run b b' t br :
  Controller.boot run b = (b', t, br) ->
  (exists v, b' = Controller.with_isBooted b v) /\
  (count is_EvTeardown t = 0 -> Controller.isBooted b' = true) /\
  (truthy (Controller.shouldExitOnError b) = false -> count is_EvTeardown t = 0).
Proof.
  intros H. unfold Controller.boot in H.
  change (Controller.register (Controller.with_isBooted b true)) with (Controller.register b) in H.
  assert (Hp : forall b1 t1 out,
    Controller.pipeline run (Controller.with_isBooted b true) = (b1, t1, out) ->
    (exists v, b1 = Controller.with_isBooted b v) /\
    (count is_EvTeardown t1 = 0 -> Controller.isBooted b1 = true) /\
    (truthy (Controller.shouldExitOnError b) = false -> count is_EvTeardown t1 = 0)).
  { intros b1 t1 out Hpl.
    destruct (ctl_body_shape run (Controller.with_isBooted b true))
      as (t0 & r0 & Hb0 & Hr0 & _ & _ & Htd0).
    unfold Controller.pipeline, m_finally, m_catch in Hpl. rewrite Hb0 in Hpl.
    destruct r0 as [v0|e0|c0]; try discriminate.
    - destruct (ctl_finally_trace (Controller.with_isBooted b true)) as (rf & Hf & _).
      rewrite Hf in Hpl. cbn in Hpl. injection Hpl as <- <- _.
      split; [exists true; reflexivity |].
      split; [reflexivity | intros _; count_trace; rewrite Htd0; reflexivity].
    - destruct (Controller.catch_handler e0 (Controller.with_isBooted b true))
        as [[b2 t2] r2] eqn:Ec.
      destruct (ctl_finally_trace b2) as (rf & Hf & _).
      destruct (ctl_catch_state e0 (Controller.with_isBooted b true) b2 t2 r2 eq_refl Ec) as [[-> Ht2] | (-> & Ht2 & Hs2)];
      (destruct r2 as [v2|e2|c2];
       try rewrite Hf in Hpl; cbn in Hpl; injection Hpl as <- <- _);
      (split; [eexists; reflexivity |]);
      (split; [ intros Hz; try reflexivity; rewrite ?count_app, Ht2 in Hz; count_trace; lia
              | intros Hs; rewrite ?count_app, Htd0, Ht2; count_trace; try reflexivity;
                cbn in Hs2; congruence ]). }
  destruct (h_result (Controller.register b)).
  1-3: destruct (Controller.pipeline run (Controller.with_isBooted b true)) as [[b1 t1] out] eqn:Ep;
       injection H as <- <- _; exact (Hp b1 t1 out eq_refl).
  injection H as <- <- _.
  split; [exists true; reflexivity |].
  split; [reflexivity | intros _; count_trace; reflexivity].
Qed.

(** [boot(run)] changes no hook and no flag of the controller but
    [isBooted]; unless an exit was requested (never, when
    [shouldExitOnError] is falsy) the controller stays booted, so the
    setters refuse to change its hooks afterwards. *)
Theorem X_boot_keeps_hooks run b b' t br :
  Controller.boot run b = (b', t, br) ->
  (exists v, b' = Controller.with_isBooted b v) /\
  (count is_EvTeardown t = 0 -> Controller.isBooted b' = true) /\
  (truthy (Controller.shouldExitOnError b) = false ->
   Controller.isBooted b' = true /\
   forall f, Controller.setRegister f b' =
     (b', [], Err (config_error "Cannot setRegister() after boot"))).
Proof.
  intros H. destruct (ctl_boot_frame run b b' t br H) as (Hv & Hb & Hs).
  split; [exact Hv |]. split; [exact Hb |].
  intros Hf. pose proof (Hb (Hs Hf)) as Hb'. split; [exact Hb' |].
  intros f. unfold Controller.setRegister. rewrite Hb'. reflexivity.
Qed.

Lemma X_boot_keeps_hooks_witness :
  Controller.isBooted
    (fst (fst (Controller.boot (FFun sync_noop)
       (Controller.with_shouldExitOnError Controller.fresh (JBool false))))) = true.
Proof.
  destruct (Controller.boot (FFun sync_noop)
              (Controller.with_shouldExitOnError Controller.fresh (JBool false)))
    as [[b' t] br] eqn:E.
  exact (proj1 (proj2 (proj2 (X_boot_keeps_hooks _ _ b' t br E)) eq_refl)).
Defined.

(** ** The exported [bootstrap(options)] *)

(** The exported [bootstrap] never throws from the constructor, and the
    controller exits on error unless [options] sets [shouldExitOnError] to
    something else than [null]: an absent or [null] value keeps [true], any
    other value, [undefined] and [false] included, is taken as it is. *)
Theorem X_bootstrap_fn_exit_flag options :
  exists b t br, Controller.bootstrap_fn options = (b, t, inr br) /\
    Controller.shouldExitOnError b =
      match o_shouldExitOnError options with
      | None | Some JNull => JBool true
      | Some v => v
      end.
Proof.
  unfold Controller.bootstrap_fn.
  destruct (ctl_constructor_shape (spread Controller.defaultOptions options))
    as (b0 & Hc & _ & _ & Hse).
  unfold Controller.new_Bootstrap. rewrite Hc.
  destruct (Controller.boot (read (o_run options)) b0) as [[b' t'] br] eqn:Eb.
  destruct (ctl_boot_frame _ b0 b' t' br Eb) as ((v & ->) & _ & _).
  do 3 eexists. split; [reflexivity |]. cbn. rewrite Hse. cbn.
  destruct (o_shouldExitOnError options) as [[| | | |]|]; reflexivity.
Qed.

(** ** [bootAsync()] *)

(** On a controller that is already booted, [bootAsync] does not boot
    again: [setOnError(reject)] throws in the executor, the promise rejects
    with that configuration error, no hook is called; exit-on-error has
    been switched off all the same. *)
Theorem X_bootAsync_when_booted b :
  Controller.isBooted b = true ->
  Controller.bootAsync b =
    (Controller.with_shouldExitOnError b (JBool false), [],
     Some (Rejected (config_error "Cannot setOnError() after boot"))).
Proof.
  intros Hb. unfold Controller.bootAsync, Controller.setOnError. cbn. rewrite Hb. reflexivity.
Qed.

Lemma X_bootAsync_when_booted_witness :
  Controller.bootAsync (Controller.with_isBooted Controller.fresh true) =
    (Controller.with_shouldExitOnError (Controller.with_isBooted Controller.fresh true) (JBool false),
     [], Some (Rejected (config_error "Cannot setOnError() after boot"))).
Proof. apply X_bootAsync_when_booted. reflexivity. Defined.

(** ** Repeated [exit] calls *)

Lemma exit_calls_after_exit c cs b :
  Controller.isBooted b = false ->
  exit_calls (c :: cs) b = (b, [EvProcessExit (JNumber c)], Halt (JNumber c)).
Proof.
  intros Hb.
  change (bind (Controller.exit (JNumber c)) (fun _ => exit_calls cs) b
          = (b, [EvProcessExit (JNumber c)], Halt (JNumber c))).
  unfold bind. rewrite (exit_unbooted_state b c Hb). reflexivity.
Qed.

(** A sequence of [exit] calls on a booted controller (an explicit call,
    then SIGINT, SIGTERM or the [exit] event) whose teardown does not throw
    synchronously: the first call clears [isBooted], calls teardown and
    schedules [process.exit] with its own code for when teardown settles;
    the second call, made before then, calls [process.exit] with its own
    code at once, which ends the process: later calls do not happen. *)
Theorem X_exit_sequence b c c' cs :
  Controller.isBooted b = true ->
  is_sync_throw (h_result (Controller.teardown b)) = false ->
  exit_calls (c :: c' :: cs) b =
    (Controller.with_isBooted b false,
     EvTeardown :: map EvEffect (h_effects (Controller.teardown b))
       ++ [EvExitAfterTeardown (JNumber c); EvProcessExit (JNumber c')],
     Halt (JNumber c')).
Proof.
  intros Hb Hs.
  change (bind (Controller.exit (JNumber c)) (fun _ => exit_calls (c' :: cs)) b
          = (Controller.with_isBooted b false,
             EvTeardown :: map EvEffect (h_effects (Controller.teardown b))
               ++ [EvExitAfterTeardown (JNumber c); EvProcessExit (JNumber c')],
             Halt (JNumber c'))).
  unfold bind. rewrite (ctl_exit_after_teardown b c Hb Hs).
  rewrite (exit_calls_after_exit c' cs (Controller.with_isBooted b false) eq_refl).
  cbn. rewrite <- app_assoc. reflexivity.
Qed.

Lemma X_exit_sequence_witness :
  exit_calls [0; 130; 143]%Z (Controller.with_isBooted Controller.fresh true) =
    (Controller.with_isBooted (Controller.with_isBooted Controller.fresh true) false,
     [EvTeardown; EvExitAfterTeardown (JNumber 0); EvProcessExit (JNumber 130)],
     Halt (JNumber 130)).
Proof. apply X_exit_sequence; reflexivity. Defined.

Lemma first_settle_app_some t1 t2 s :
  Controller.first_settle t1 = Some s -> Controller.first_settle (t1 ++ t2) = Some s.
Proof.
  induction t1 as [|ev t1 IH]; cbn; [discriminate |].
  destruct ev as [| | | | | | [n|s']| |]; cbn; auto.
Qed.

Lemma ctl_pipeline_prefix run b :
  exists rest, snd (fst (Controller.pipeline run b)) = snd (fst (Controller.body run b)) ++ rest.
Proof.
  unfold Controller.pipeline, m_finally, m_catch.
  destruct (Controller.body run b) as [[b1 t1] r1].
  destruct r1 as [v|e|c].
  - destruct (Controller.finally_handler b1) as [[b2 t2] r2] eqn:Ef. cbn. eexists; reflexivity.
  - destruct (Controller.catch_handler e b1) as [[b2 t2] r2].
    destruct r2; cbn -[Controller.finally_handler];
    try (destruct (Controller.finally_handler b2) as [[b3 t3] r3]; cbn);
    eexists; rewrite <- ?app_assoc; reflexivity.
  - cbn. exists []. rewrite app_nil_r. reflexivity.
Qed.

Lemma ctl_body_accept b :
  settles_ok (h_result (Controller.register b)) = true ->
  exists rest, snd (fst (Controller.body (FFun Controller.accept_run) b)) =
    EvRegister :: map EvEffect (h_effects (Controller.register b))
      ++ EvRun :: EvEffect (EffSettle Fulfilled) :: rest.
Proof.
  intros Hok. unfold Controller.body, bind, get, invoke, call_fn. cbn.
  destruct (h_result (Controller.register b)); try discriminate; cbn;
  (eexists; rewrite <- ?app_assoc; cbn; reflexivity).
Qed.

Lemma ctl_bootAsync_settles b :
  Controller.isBooted b = false ->
  settles_nothing (h_effects (Controller.register b)) = true ->
  exists b' t s, Controller.bootAsync b = (b', t, Some s) /\
    count is_termination t = 0 /\
    s = match h_result (Controller.register b) with
        | Returns _ | Resolves _ => Fulfilled
        | Rejects e | Throws e => Rejected e
        end.
Proof.
  intros Hb Hn.
  set (b2 := Controller.with_onError
               (Controller.with_shouldExitOnError b (JBool false)) Controller.reject_hook).
  assert (Hset : Controller.setOnError Controller.reject_hook
                   (Controller.with_shouldExitOnError b (JBool false)) = (b2, [], Ok tt)).
  { unfold Controller.setOnError. cbn. rewrite Hb. reflexivity. }
  unfold Controller.bootAsync. rewrite Hset.
  destruct (Controller.boot (FFun Controller.accept_run) b2) as [[b3 t3] br] eqn:Eb.
  pose proof (ctl_boot_no_exit_when_off b2 _ b3 t3 br eq_refl Eb) as Hq.
  cbn [app].
  enough (Hs : match Controller.first_settle t3 with
               | Some s => Some s
               | None => match br with BootThrew e => Some (Rejected e) | _ => None end
               end =
               Some match h_result (Controller.register b) with
                    | Returns _ | Resolves _ => Fulfilled
                    | Rejects e | Throws e => Rejected e
                    end).
  { rewrite Hs. do 3 eexists. split; [reflexivity |]. split; [exact Hq | reflexivity]. }
  unfold Controller.boot in Eb.
  change (Controller.register (Controller.with_isBooted b2 true)) with (Controller.register b) in Eb.
  set (b0 := Controller.with_isBooted b2 true) in Eb.
  destruct (h_result (Controller.register b)) as [v|v|e|e] eqn:Er.
  1,2:
    destruct (ctl_body_accept b0) as (rest & Hbody);
    [cbn; rewrite Er; reflexivity |];
    destruct (ctl_pipeline_prefix (FFun Controller.accept_run) b0) as (rest2 & Hp);
    destruct (Controller.pipeline (FFun Controller.accept_run) b0) as [[b1 t1] out];
    injection Eb as <- <- _; cbn [fst snd] in Hp; rewrite Hp, Hbody; cbn;
    rewrite <- ?app_assoc; cbn; rewrite first_settle_skip by exact Hn; reflexivity.
  - assert (Hbody : Controller.body (FFun Controller.accept_run) b0 =
              (b0, EvRegister :: map EvEffect (h_effects (Controller.register b)), Err e)).
    { unfold Controller.body, bind, get, invoke. cbn. rewrite Er. cbn.
      rewrite ?app_nil_r. reflexivity. }
    unfold Controller.pipeline, m_finally, m_catch in Eb. rewrite Hbody in Eb.
    rewrite ctl_catch_handler_spec in Eb. cbn -[Controller.finally_handler] in Eb.
    change (truthy (JBool false)) with false in Eb. cbn -[Controller.finally_handler] in Eb.
    destruct (Controller.finally_handler b0) as [[b4 t4] r4].
    injection Eb as <- <- _. cbn.
    rewrite <- ?app_assoc, first_settle_skip by exact Hn. reflexivity.
  - injection Eb as <- <- <-. cbn. rewrite first_settle_none by exact Hn. reflexivity.
Qed.

Lemma ctl_bootstrapPromise_settles r :
  settles_nothing (h_effects r) = true ->
  exists b' t s, Controller.bootstrapPromise r = (b', t, Some s) /\
    count is_termination t = 0 /\
    s = match h_result r with
        | Returns _ | Resolves _ => Fulfilled
        | Rejects e | Throws e => Rejected e
        end.
Proof.
  intros Hn.
  destruct (ctl_constructor_shape (Controller.bootstrapPromise_options r))
    as (b & Hc & Hb & Hr & _).
  unfold Controller.bootstrapPromise, Controller.new_Bootstrap. rewrite Hc.
  cbn in Hr.
  assert (Hn' : settles_nothing (h_effects (Controller.register b)) = true) by (rewrite Hr; exact Hn).
  destruct (ctl_bootAsync_settles b Hb Hn') as (b' & t & s & Ha & Ht & Hs).
  rewrite Ha. exists b', t, s. split; [reflexivity |]. split; [exact Ht |].
  rewrite Hs, Hr. reflexivity.
Qed.

Lemma leg_bootstrapPromise_settles r :
  settles_nothing (h_effects r) = true ->
  exists t s, Legacy.bootstrapPromise r = (t, Some s) /\
    count is_termination t = 0 /\
    (is_sync_throw (h_result r) = false -> count is_EvOnFinally t = 1) /\
    s = match h_result r with
        | Returns _ | Resolves _ => Fulfilled
        | Rejects e | Throws e => Rejected e
        end.
Proof.
  intros Hn.
  unfold Legacy.bootstrapPromise, Legacy.bootstrap, Legacy.pipeline, m_finally, m_catch,
    Legacy.body, Legacy.start, Legacy.catch_handler, Legacy.finally_handler,
    bind, ret, invoke, call_fn, call_handler, truthy.
  cbn.
  destruct (h_result r); cbn;
  rewrite <- ?app_assoc, ?first_settle_skip, ?first_settle_none by exact Hn; cbn;
  (do 2 eexists; split; [reflexivity |]);
  (split; [count_trace; reflexivity | split; [intros; count_trace; try reflexivity; discriminate | reflexivity]]).
Qed.

Lemma early_bootstrapPromise_settles r :
  settles_nothing (h_effects r) = true ->
  exists t s, Early.bootstrapPromise r = (t, Some s) /\
    count is_termination t = 0 /\
    s = match h_result r with
        | Returns _ | Resolves _ => Fulfilled
        | Rejects e | Throws e => Rejected e
        end.
Proof.
  intros Hn.
  unfold Early.bootstrapPromise, Early.bootstrap, Early.pipeline, m_catch,
    Early.body, Early.start, Early.catch_handler,
    bind, ret, invoke, call_fn, call_handler, truthy.
  cbn.
  destruct (h_result r); cbn;
  rewrite <- ?app_assoc, ?first_settle_skip, ?first_settle_none by exact Hn; cbn;
  (do 2 eexists; split; [reflexivity |]);
  (split; [count_trace; reflexivity | reflexivity]).
Qed.

(** [bootAsync()] on any controller that is not booted yet (a subclass
    with its own hooks included), whose register hook does not itself
    settle the promise: it settles, fulfilled when register returns or
    resolves (the run hook [accept] is reached), rejected with register's
    error when it rejects or throws; [process.exit] is never called, since
    [bootAsync] switches exit-on-error off first. *)
Theorem X_bootAsync_settles b :
  Controller.isBooted b = false ->
  settles_nothing (h_effects (Controller.register b)) = true ->
  exists b' t s, Controller.bootAsync b = (b', t, Some s) /\
    count is_termination t = 0 /\
    s = match h_result (Controller.register b) with
        | Returns _ | Resolves _ => Fulfilled
        | Rejects e | Throws e => Rejected e
        end.
Proof. exact (ctl_bootAsync_settles b). Qed.

Lemma X_bootAsync_settles_witness :
  exists b' t s,
    Controller.bootAsync
      (Controller.with_onComplete (ctl_with_register (Hook [EffLog 1] (Returns JUndefined)))
         (throwing boom)) = (b', t, Some s) /\
    count is_termination t = 0 /\ s = Fulfilled.
Proof. apply X_bootAsync_settles; reflexivity. Defined.

(** [bootstrapPromise(register)] of [src/src/index.ts]: for a register hook
    that does not itself settle the promise, the promise is fulfilled when
    register returns or resolves and rejected with register's error when it
    rejects or throws; [process.exit] is never called, and onFinally runs
    once unless register throws synchronously. *)
Theorem X_index_bootstrapPromise_settles r :
  settles_nothing (h_effects r) = true ->
  exists t s, Legacy.bootstrapPromise r = (t, Some s) /\
    count is_termination t = 0 /\
    (is_sync_throw (h_result r) = false -> count is_EvOnFinally t = 1) /\
    s = match h_result r with
        | Returns _ | Resolves _ => Fulfilled
        | Rejects e | Throws e => Rejected e
        end.
Proof. exact (leg_bootstrapPromise_settles r). Qed.

Lemma X_index_bootstrapPromise_settles_witness :
  exists t s, Legacy.bootstrapPromise (rejecting boom) = (t, Some s) /\
    count is_termination t = 0 /\
    (is_sync_throw (h_result (rejecting boom)) = false -> count is_EvOnFinally t = 1) /\
    s = Rejected boom.
Proof. apply X_index_bootstrapPromise_settles. reflexivity. Defined.

(** [bootstrapPromise(register)] of [src/unnamed/part_000]: the same
    settlement, and no [process.exit] ([shouldExit: false]). *)
Theorem X_early_bootstrapPromise_settles r :
  settles_nothing (h_effects r) = true ->
  exists t s, Early.bootstrapPromise r = (t, Some s) /\
    count is_termination t = 0 /\
    s = match h_result r with
        | Returns _ | Resolves _ => Fulfilled
        | Rejects e | Throws e => Rejected e
        end.
Proof. exact (early_bootstrapPromise_settles r). Qed.

Lemma X_early_bootstrapPromise_settles_witness :
  exists t s, Early.bootstrapPromise (throwing boom) = (t, Some s) /\
    count is_termination t = 0 /\ s = Rejected boom.
Proof. apply X_early_bootstrapPromise_settles. reflexivity. Defined.

(** The three [bootstrapPromise] functions (of the class version, of
    [src/src/index.ts] and of [part_000]) settle their promise the same way
    for every register hook that does not itself settle it. *)
Theorem X_bootstrapPromise_versions_agree r :
  settles_nothing (h_effects r) = true ->
  snd (Controller.bootstrapPromise r) = snd (Legacy.bootstrapPromise r) /\
  snd (Legacy.bootstrapPromise r) = snd (Early.bootstrapPromise r).
Proof.
  intros Hn.
  destruct (ctl_bootstrapPromise_settles r Hn) as (b1 & t1 & s1 & H1 & _ & E1).
  destruct (leg_bootstrapPromise_settles r Hn) as (t2 & s2 & H2 & _ & _ & E2).
  destruct (early_bootstrapPromise_settles r Hn) as (t3 & s3 & H3 & _ & E3).
  rewrite H1, H2, H3. cbn. subst. split; reflexivity.
Qed.

Lemma X_bootstrapPromise_versions_agree_witness :
  snd (Controller.bootstrapPromise (Hook [EffLog 2] (Resolves (JNumber 7))))
    = snd (Legacy.bootstrapPromise (Hook [EffLog 2] (Resolves (JNumber 7)))) /\
  snd (Legacy.bootstrapPromise (Hook [EffLog 2] (Resolves (JNumber 7))))
    = snd (Early.bootstrapPromise (Hook [EffLog 2] (Resolves (JNumber 7)))).
Proof. apply X_bootstrapPromise_versions_agree. reflexivity. Defined.

(** ** The first [bootstrap] ([src/unnamed/part_000]) *)

Lemma early_bootstrap_pipeline options :
  (forall r, read (Early.o_register (Early.spread Early.defaultOptions options)) = FFun r ->
     is_sync_throw (h_result r) = false) ->
  Early.bootstrap options =
    (snd (fst (Early.pipeline (Early.spread Early.defaultOptions options) tt)),
     BootReturned (snd (Early.pipeline (Early.spread Early.defaultOptions options) tt))).
Proof.
  intros Hs. unfold Early.bootstrap.
  destruct (read (Early.o_register (Early.spread Early.defaultOptions options))) as [| |r] eqn:Er.
  1,2: destruct (Early.pipeline _ tt) as [[u t] out]; reflexivity.
  specialize (Hs r eq_refl).
  destruct (h_result r); try discriminate;
    destruct (Early.pipeline _ tt) as [[u t] out]; reflexivity.
Qed.

Lemma early_start_ok o :
  (forall r, read (Early.o_register o) = FFun r -> settles_ok (h_result r) = true) ->
  exists v, Early.start o tt =
    (tt, match read (Early.o_register o) with
         | FFun r => EvRegister :: map EvEffect (h_effects r)
         | _ => []
         end, Ok v).
Proof.
  intros Hok. unfold Early.start, invoke, ret.
  destruct (read (Early.o_register o)) as [| |r]; [eexists; reflexivity | eexists; reflexivity |].
  specialize (Hok r eq_refl).
  destruct (h_result r); try discriminate; eexists; reflexivity.
Qed.

(** With [shouldExit] on, a run that settles with a value [v] (register,
    when given, having completed) makes the first [bootstrap] call
    [process.exit(v ? v : 0)] right after [run]: [0] for a falsy [v]
    ([undefined], [0], [""], [false], [null]), [v] itself otherwise.  When
    [process.exit] accepts that code, the process ends with it. *)
Theorem X_early_exit_after_run options h v :
  (forall r, read (Early.o_register (Early.spread Early.defaultOptions options)) = FFun r ->
     settles_ok (h_result r) = true) ->
  read (Early.o_run (Early.spread Early.defaultOptions options)) = FFun h ->
  (h_result h = Returns v \/ h_result h = Resolves v) ->
  truthy (read_val (Early.o_shouldExit (Early.spread Early.defaultOptions options))) = true ->
  exit_code_error (if truthy v then v else JNumber 0) = None ->
  Early.bootstrap options =
    (match read (Early.o_register (Early.spread Early.defaultOptions options)) with
     | FFun r => EvRegister :: map EvEffect (h_effects r)
     | _ => []
     end ++ EvRun :: map EvEffect (h_effects h)
         ++ [EvProcessExit (if truthy v then v else JNumber 0)],
     BootReturned (Halt (if truthy v then v else JNumber 0))).
Proof.
  intros Hok Hrun Hv Hse Hc.
  rewrite early_bootstrap_pipeline.
  2:{ intros r Er. specialize (Hok r Er). destruct (h_result r); try discriminate; reflexivity. }
  destruct (early_start_ok _ Hok) as (w & Hst).
  unfold Early.pipeline, m_catch, Early.body, bind. rewrite Hst.
  unfold call_fn, invoke, process_exit, exit_result. rewrite Hrun, Hse.
  destruct Hv as [Hv | Hv]; rewrite Hv; cbn; rewrite Hc; cbn; rewrite <- ?app_assoc; reflexivity.
Qed.

Lemma X_early_exit_after_run_witness :
  Early.bootstrap (Early.mkOptions None (Some (FFun (Hook [EffLog 3] (Resolves (JString "")))))
                     None None)
  = ([] ++ EvRun :: map EvEffect [EffLog 3] ++ [EvProcessExit (JNumber 0)],
     BootReturned (Halt (JNumber 0))).
Proof.
  apply (X_early_exit_after_run
           (Early.mkOptions None (Some (FFun (Hook [EffLog 3] (Resolves (JString ""))))) None None)
           (Hook [EffLog 3] (Resolves (JString ""))) (JString "")).
  - intros r Er; discriminate.
  - reflexivity.
  - right; reflexivity.
  - reflexivity.
  - reflexivity.
Defined.

Lemma early_catch_spec o e :
  Early.catch_handler o e tt =
   match read (Early.o_errorHandler o) with
   | FFun h =>
       match h_result (h e) with
       | Rejects x | Throws x => (tt, EvOnError e :: map EvEffect (h_effects (h e)), Err x)
       | _ =>
           if truthy (read_val (Early.o_shouldExit o))
           then (tt, EvOnError e :: map EvEffect (h_effects (h e))
                      ++ [EvProcessExit (nullish_or (err_code e) (JNumber 1))],
                 exit_result (nullish_or (err_code e) (JNumber 1)))
           else (tt, EvOnError e :: map EvEffect (h_effects (h e)), Ok JUndefined)
       end
   | _ => (tt, [], Err type_error)
   end.
Proof.
  unfold Early.catch_handler, call_handler, bind, invoke, ret, throw, process_exit.
  destruct (read (Early.o_errorHandler o)) as [| |h]; cbn; try reflexivity.
  destruct (h_result (h e)); cbn; try reflexivity;
  destruct (truthy (read_val (Early.o_shouldExit o))); cbn; rewrite ?app_nil_r; reflexivity.
Qed.

(** With [shouldExit] off, the first [bootstrap] never terminates the
    process, whatever its hooks do. *)
Theorem X_early_no_exit_when_off options :
  truthy (read_val (Early.o_shouldExit (Early.spread Early.defaultOptions options))) = false ->
  count is_termination (fst (Early.bootstrap options)) = 0.
Proof.
  intros Hs.
  set (o := Early.spread Early.defaultOptions options) in *.
  assert (Hp : count is_termination (snd (fst (Early.pipeline o tt))) = 0).
  { unfold Early.pipeline, m_catch.
    assert (Hb : exists t r, Early.body o tt = (tt, t, r) /\ no_halt r = true /\
                   count is_termination t = 0).
    { unfold Early.body, Early.start, bind, ret, invoke, call_fn, throw, process_exit.
      rewrite Hs. eval_goal; solve [shape_done]. }
    destruct Hb as (t & r & Hb & Hr & Ht). rewrite Hb.
    destruct r as [v|e|c]; try discriminate; [exact Ht |].
    rewrite early_catch_spec, Hs.
    destruct (read (Early.o_errorHandler o)) as [| |h]; cbn -[count];
    try (rewrite count_app, Ht; count_trace; reflexivity).
    destruct (h_result (h e)); cbn -[count]; rewrite count_app, Ht; count_trace; reflexivity. }
  unfold Early.bootstrap. fold o.
  destruct (Early.pipeline o tt) as [[u t] out]. cbn in Hp.
  destruct (read (Early.o_register o)) as [| |r]; cbn; auto.
  destruct (h_result r); cbn; auto. count_trace. reflexivity.
Qed.

Lemma X_early_no_exit_when_off_witness :
  count is_termination
    (fst (Early.bootstrap (Early.mkOptions None (Some (FFun (Hook [] (Returns (JNumber 4)))))
                            (Some (JBool false)) None))) = 0.
Proof. apply X_early_no_exit_when_off. reflexivity. Defined.

(** With [shouldExit] on, a run that fails with [e] (by rejecting or by
    throwing, which the async callback turns into a rejection), after
    register completed, makes the first [bootstrap] call the error handler
    with [e] and then [process.exit(e.code ?? 1)], once the handler
    completes: the process ends with that code if [process.exit] accepts
    it, and otherwise the call throws and the returned promise rejects
    with its error. *)
Theorem X_early_exit_on_run_failure options h e g :
  (forall r, read (Early.o_register (Early.spread Early.defaultOptions options)) = FFun r ->
     settles_ok (h_result r) = true) ->
  read (Early.o_run (Early.spread Early.defaultOptions options)) = FFun h ->
  (h_result h = Rejects e \/ h_result h = Throws e) ->
  read (Early.o_errorHandler (Early.spread Early.defaultOptions options)) = FFun g ->
  settles_ok (h_result (g e)) = true ->
  truthy (read_val (Early.o_shouldExit (Early.spread Early.defaultOptions options))) = true ->
  Early.bootstrap options =
    (match read (Early.o_register (Early.spread Early.defaultOptions options)) with
     | FFun r => EvRegister :: map EvEffect (h_effects r)
     | _ => []
     end ++ EvRun :: map EvEffect (h_effects h)
         ++ EvOnError e :: map EvEffect (h_effects (g e))
         ++ [EvProcessExit (nullish_or (err_code e) (JNumber 1))],
     BootReturned (exit_result (nullish_or (err_code e) (JNumber 1)))).
Proof.
  intros Hok Hrun He Hg Hgok Hse.
  rewrite early_bootstrap_pipeline.
  2:{ intros r Er. specialize (Hok r Er). destruct (h_result r); try discriminate; reflexivity. }
  destruct (early_start_ok _ Hok) as (w & Hst).
  assert (Hb : Early.body (Early.spread Early.defaultOptions options) tt =
    (tt, match read (Early.o_register (Early.spread Early.defaultOptions options)) with
         | FFun r => EvRegister :: map EvEffect (h_effects r)
         | _ => []
         end ++ EvRun :: map EvEffect (h_effects h), Err e)).
  { unfold Early.body, bind. rewrite Hst. unfold call_fn, invoke. rewrite Hrun.
    destruct He as [He | He]; rewrite He; reflexivity. }
  unfold Early.pipeline, m_catch. rewrite Hb, early_catch_spec, Hg, Hse.
  destruct (h_result (g e)); try discriminate; cbn; rewrite <- ?app_assoc; reflexivity.
Qed.

Lemma X_early_exit_on_run_failure_witness :
  Early.bootstrap (Early.mkOptions None (Some (FFun (throwing enoent))) None None)
  = ([] ++ EvRun :: map EvEffect []
        ++ EvOnError enoent :: map EvEffect (h_effects (console_error enoent))
        ++ [EvProcessExit (JString "ENOENT")],
     BootReturned (Err invalid_arg_type)).
Proof.
  apply (X_early_exit_on_run_failure
           (Early.mkOptions None (Some (FFun (throwing enoent))) None None)
           (throwing enoent) enoent console_error).
  - intros r Er; discriminate.
  - reflexivity.
  - right; reflexivity.
  - reflexivity.
  - reflexivity.
  - reflexivity.
Defined.


(** ** The two [bootstrap] functions compared *)

Lemma ctl_constructor_fields o :
  exists b, Controller.new_Bootstrap (Some o) = (b, [], Ok tt) /\
    Controller.isBooted b = false /\
    Controller.register b =
      match read (o_register o) with FFun f => f | _ => async_noop end /\
    Controller.onComplete b =
      match read (o_onComplete o) with FFun f => f | _ => async_noop end /\
    Controller.onFinally b =
      match read (o_onFinally o) with FFun f => f | _ => async_noop end /\
    Controller.teardown b =
      match read (o_teardown o) with FFun f => f | _ => async_noop end /\
    Controller.onError b =
      match read (o_errorHandler o) with FFun f => f | _ => console_error end /\
    Controller.shouldExitOnError b =
      (if not_null (read_val (o_shouldExitOnError o))
       then read_val (o_shouldExitOnError o) else JBool true).
Proof.
  unfold Controller.new_Bootstrap, Controller.constructor, Controller.when_fn,
    Controller.setRegister, Controller.setOnComplete, Controller.setOnFinally,
    Controller.setTeardown, Controller.setOnError, bind, get, put, ret.
  destruct (read (o_register o)); destruct (read (o_onComplete o));
  destruct (read (o_onFinally o)); destruct (read (o_teardown o));
  destruct (not_null (read_val (o_shouldExitOnError o)));
  destruct (read (o_errorHandler o)); cbn;
  (eexists; split; [reflexivity | repeat split]).
Qed.

Lemma body_agree b o r c runc :
  Controller.register b = r -> read (o_register o) = FFun r ->
  Controller.onComplete b = c -> read (o_onComplete o) = FFun c ->
  (runc = read (o_run o) \/
   ((forall k, runc <> FFun k) /\ (forall k, read (o_run o) <> FFun k))) ->
  exists t x, Controller.body runc b = (b, t, x) /\ Legacy.body o tt = (tt, t, x).
Proof.
  intros Hr Hro Hc Hco Hrun.
  unfold Controller.body, Legacy.body, Legacy.start, bind, get, invoke, call_fn, throw.
  rewrite Hro, Hco. subst r c. cbn.
  destruct Hrun as [-> | (Hn1 & Hn2)].
  - destruct (h_result (Controller.register b)); cbn; try (do 2 eexists; split; reflexivity);
    destruct (read (o_run o)) as [| |k]; cbn; try (do 2 eexists; split; reflexivity);
    destruct (h_result k); cbn; try (do 2 eexists; split; reflexivity);
    destruct (h_result (Controller.onComplete b)); cbn; (do 2 eexists; split; reflexivity).
  - destruct runc as [| |k]; [| | exfalso; exact (Hn1 k eq_refl)];
    (destruct (read (o_run o)) as [| |k]; [| | exfalso; exact (Hn2 k eq_refl)]);
    destruct (h_result (Controller.register b)); cbn; (do 2 eexists; split; reflexivity).
Qed.

Lemma catch_agree b o h e :
  Controller.onError b = h -> read (o_errorHandler o) = FFun h ->
  Controller.shouldExitOnError b = read_val (o_shouldExitOnError o) ->
  truthy (read_val (o_shouldExitOnError o)) = false ->
  exists t x, Controller.catch_handler e b = (b, t, x) /\ Legacy.catch_handler o e tt = (tt, t, x).
Proof.
  intros Hh Hho Hs Hf.
  rewrite ctl_catch_handler_spec, leg_catch_handler_spec, Hho, Hh, Hs, Hf.
  destruct (h_result (h e)); (do 2 eexists; split; reflexivity).
Qed.

Lemma finally_agree b o f :
  Controller.onFinally b = f -> read (o_onFinally o) = FFun f ->
  exists t x, Controller.finally_handler b = (b, t, x) /\ Legacy.finally_handler o tt = (tt, t, x).
Proof.
  intros Hf Hfo.
  unfold Controller.finally_handler, Legacy.finally_handler, call_fn, bind, get, invoke, ret.
  rewrite Hfo. cbn. rewrite Hf.
  destruct (h_result f); cbn; (do 2 eexists; split; reflexivity).
Qed.

Lemma pipeline_agree b o r c f h runc :
  Controller.register b = r -> read (o_register o) = FFun r ->
  Controller.onComplete b = c -> read (o_onComplete o) = FFun c ->
  Controller.onFinally b = f -> read (o_onFinally o) = FFun f ->
  Controller.onError b = h -> read (o_errorHandler o) = FFun h ->
  Controller.shouldExitOnError b = read_val (o_shouldExitOnError o) ->
  truthy (read_val (o_shouldExitOnError o)) = false ->
  (runc = read (o_run o) \/
   ((forall k, runc <> FFun k) /\ (forall k, read (o_run o) <> FFun k))) ->
  exists b1, Controller.pipeline runc b =
    (b1, snd (fst (Legacy.pipeline o tt)), snd (Legacy.pipeline o tt)).
Proof.
  intros Hr Hro Hc Hco Hf Hfo Hh Hho Hs Hsf Hrun.
  destruct (body_agree b o r c runc Hr Hro Hc Hco Hrun) as (t & x & H1 & H2).
  destruct (finally_agree b o f Hf Hfo) as (tf & xf & F1 & F2).
  unfold Controller.pipeline, Legacy.pipeline, m_finally, m_catch.
  rewrite H1, H2.
  destruct x as [v|e|cc].
  - rewrite F1, F2. eexists; reflexivity.
  - destruct (catch_agree b o h e Hh Hho Hs Hsf) as (t2 & x2 & C1 & C2).
    rewrite C1, C2.
    destruct x2; try rewrite F1, F2; eexists; reflexivity.
  - eexists; reflexivity.
Qed.

(** When every hook of the merged options is a function and
    [shouldExitOnError] is falsy but not [null], the exported [bootstrap]
    of the class version and the functional [bootstrap] of
    [src/src/index.ts] call the same hooks in the same order, with the same
    results, and end the same way (the class version's controller apart). *)
Theorem X_bootstrap_versions_agree options r c f h :
  read (o_register (spread Legacy.defaultOptions options)) = FFun r ->
  read (o_onComplete (spread Legacy.defaultOptions options)) = FFun c ->
  read (o_onFinally (spread Legacy.defaultOptions options)) = FFun f ->
  read (o_errorHandler (spread Legacy.defaultOptions options)) = FFun h ->
  not_null (read_val (o_shouldExitOnError (spread Legacy.defaultOptions options))) = true ->
  truthy (read_val (o_shouldExitOnError (spread Legacy.defaultOptions options))) = false ->
  exists b', Controller.bootstrap_fn options =
    (b', fst (Legacy.bootstrap options), inr (snd (Legacy.bootstrap options))).
Proof.
  intros Hro Hco Hfo Hho Hnn Hsf.
  set (o := spread Legacy.defaultOptions options) in *.
  unfold Controller.bootstrap_fn.
  change (spread Controller.defaultOptions options) with o.
  destruct (ctl_constructor_fields o) as (b & Hnew & _ & Hr & Hc & Hf & _ & Hh & Hs).
  rewrite Hro in Hr. rewrite Hco in Hc. rewrite Hfo in Hf. rewrite Hho in Hh.
  rewrite Hnn in Hs.
  rewrite Hnew.
  assert (Hrun : read (o_run options) = read (o_run o) \/
     ((forall k, read (o_run options) <> FFun k) /\ (forall k, read (o_run o) <> FFun k))).
  { subst o. cbn. destruct (o_run options) as [v|]; [left; reflexivity |].
    right; split; intros k; discriminate. }
  destruct (pipeline_agree (Controller.with_isBooted b true) o r c f h (read (o_run options))
              Hr Hro Hc Hco Hf Hfo Hh Hho Hs Hsf Hrun) as (b1 & Hp).
  unfold Controller.boot, Legacy.bootstrap. fold o. rewrite Hro.
  change (Controller.register (Controller.with_isBooted b true)) with (Controller.register b).
  rewrite Hr.
  destruct (h_result r);
  try (rewrite Hp; destruct (Legacy.pipeline o tt) as [[u t] out]; eexists; reflexivity).
  eexists; reflexivity.
Qed.

Lemma X_bootstrap_versions_agree_witness :
  exists b', Controller.bootstrap_fn
      (mkOptions (Some (FFun (rejecting boom))) (Some (FFun sync_noop)) None None None
         (Some (JBool false)) None) =
    (b', fst (Legacy.bootstrap
               (mkOptions (Some (FFun (rejecting boom))) (Some (FFun sync_noop)) None None None
                  (Some (JBool false)) None)),
     inr (snd (Legacy.bootstrap
               (mkOptions (Some (FFun (rejecting boom))) (Some (FFun sync_noop)) None None None
                  (Some (JBool false)) None)))).
Proof.
  apply (X_bootstrap_versions_agree _ (rejecting boom) sync_noop sync_noop console_error);
  reflexivity.
Defined.
